(** * Syncora: the real-time synchronisation core, embedded in Rocq

    The React components of the chat client ([ChatWindow], [UserSearch],
    [Notifications]) are embedded as programs over an explicit component
    state and an explicit remote store.  An [async] function becomes a
    value of [Prog]: state updates, remote calls (the [await] points),
    fire-and-forget calls and [throw], with [try]/[catch]/[finally] as
    combinators.  Programs run either in one piece ([run]) or under an
    event loop that interleaves them with deliveries of the push feed
    ([ChatWindow.step]). *)

From Stdlib Require Import String Ascii List Bool Arith NArith Lia.
From Stdlib Require Import Sorted Permutation.
Import ListNotations.
Local Open Scope string_scope.
Local Open Scope list_scope.

(** ** Small pieces of the JavaScript string library *)

(** A string is read as its sequence of characters, one element each, over
    the characters of code below 256 (U+0000 to U+00FF).

    White space as [String.prototype.trim] sees it: the characters of
    [WhiteSpace] and [LineTerminator].  Below 256 these are TAB, LF, VT, FF,
    CR, SPACE and NO-BREAK SPACE (U+00A0, code 160); NEXT LINE (U+0085) is
    not among them.  The others (U+1680, U+2000 to U+200A, U+2028, U+2029,
    U+202F, U+205F, U+3000, U+FEFF) have no element in these strings. *)
Definition is_space (c : ascii) : bool :=
  let n := nat_of_ascii c in
  Nat.eqb n 32 || Nat.eqb n 160 || (Nat.leb 9 n && Nat.leb n 13).

Fixpoint trimStart (s : string) : string :=
  match s with
  | EmptyString => EmptyString
  | String c s' => if is_space c then trimStart s' else s
  end.

Fixpoint trimEnd (s : string) : string :=
  match s with
  | EmptyString => EmptyString
  | String c s' =>
      let t := trimEnd s' in
      if is_space c && (t =? "") then "" else String c t
  end.

Definition trim (s : string) : string := trimEnd (trimStart s).

(** [s.startsWith(p)] *)
Definition startsWith (s p : string) : bool := String.prefix p s.

(** JavaScript truthiness of a string: the empty string is falsy. *)
Definition truthy (s : string) : bool := negb (s =? "").

(** [s.split(sep)[0]]: the text before the first separator. *)
Fixpoint split_first (sep : ascii) (s : string) : string :=
  match s with
  | EmptyString => EmptyString
  | String c s' => if Ascii.eqb c sep then "" else String c (split_first sep s')
  end.

Fixpoint contains (sep : ascii) (s : string) : bool :=
  match s with
  | EmptyString => false
  | String c s' => Ascii.eqb c sep || contains sep s'
  end.

(** [s.split(sep).pop()]: the text after the last separator. *)
Fixpoint split_last (sep : ascii) (s : string) : string :=
  match s with
  | EmptyString => EmptyString
  | String c s' =>
      if contains sep s' then split_last sep s'
      else if Ascii.eqb c sep then s' else s
  end.

(** ** types/database.ts *)

Inductive FriendshipStatus := pending | accepted | rejected.

Module MediaType.
Inductive t := image | video | file | gif.
End MediaType.

Module NotificationType.
Inductive t := friend_request | message | friend_accepted.
End NotificationType.

Module Profile.
Record t := mk {
    id : string;
    username : option string;
    bio : option string;
    avatar_url : option string;
    created_at : string;
    updated_at : string }.
End Profile.

(** The optional joined profiles ([requester?], [addressee?]) are left out:
    they are only rendered. *)
Module Friendship.
Record t := mk {
    id : string;
    requester_id : string;
    addressee_id : string;
    status : FriendshipStatus;
    created_at : string }.
End Friendship.

Module Message.
Record t := mk {
    id : string;
    sender_id : string;
    receiver_id : string;
    content : option string;
    media_url : option string;
    media_type : option MediaType.t;
    file_name : option string;
    read : bool;
    created_at : string }.
End Message.

Module Notification.
Record t := mk {
    id : string;
    user_id : string;
    type : NotificationType.t;
    content : string;
    related_id : option string;
    read : bool;
    created_at : string }.
End Notification.

(** The signed-in user of [useAuth()] and a browser [File]. *)
Module User.
Record t := mk { id : string; email : option string }.
End User.

Module File.
Record t := mk { name : string; type : string; size : N }.
End File.

(** ** Errors and toasts *)

(** The error taxonomy of the remote store. *)
Inductive ErrorKind :=
| Conflict | ValidationError | NotFound | Forbidden
| UploadError | TransportError | UnknownRemoteError.

(** A value that can be thrown: the [error] object of a remote reply, or
    [new Error(message)]. *)
Inductive Err :=
| RemoteError (kind : ErrorKind) (msg : string)
| JsError (msg : string).

Definition message (e : Err) : string :=
  match e with RemoteError _ m => m | JsError m => m end.

Inductive Variant := default | destructive.

Record Toast := mkToast {
  title : string;
  description : string;
  variant : Variant }.

(** ** The remote store

    The store is an external collaborator.  Its tables are lists of rows in
    insertion order; the filters, orders and limits of each call are the
    ones the components write. *)

Module Store.
Record t := mk {
  friendships : list Friendship.t;
  messages : list Message.t;
  notifications : list Notification.t }.
End Store.

(** What the server adds to one call: a failure of the call itself (when
    [fault] is set the call changes nothing and answers with that error),
    and the id and timestamp it gives to an inserted row. *)
Record Env := mkEnv {
  fault : option Err;
  new_id : string;
  now : string }.

(** The [{ data, error }] object every call resolves to. *)
Record Reply (A : Type) := mkReply {
  data : option A;
  error : option Err }.
Arguments mkReply {A} _ _.
Arguments data {A} _.
Arguments error {A} _.

Module MessageInsert.
Record t := mk {
  sender_id : string;
  receiver_id : string;
  content : option string;
  media_url : option string;
  media_type : option MediaType.t;
  file_name : option string }.
End MessageInsert.

Module NotificationInsert.
Record t := mk {
  user_id : string;
  type : NotificationType.t;
  content : string;
  related_id : option string }.
End NotificationInsert.

Module FriendshipInsert.
Record t := mk {
  requester_id : string;
  addressee_id : string;
  status : FriendshipStatus }.
End FriendshipInsert.

(** The calls the components make, one constructor per query as written
    in the source. *)
Inductive RemoteCall : Type -> Type :=
(* from('messages').select('*').or(and(sender.eq.u,receiver.eq.f),
   and(sender.eq.f,receiver.eq.u)).order('created_at', ascending) *)
| SelectConversation (u f : string) : RemoteCall (Reply (list Message.t))
(* from('messages').update({read: true}).eq('sender_id', f)
   .eq('receiver_id', u).eq('read', false) *)
| UpdateMessagesRead (f u : string) : RemoteCall (Reply unit)
(* storage.from('chat-media').upload(path, file) *)
| StorageUpload (path : string) (f : File.t) : RemoteCall (Reply unit)
(* from('messages').insert({...}).select().single() *)
| InsertMessage (m : MessageInsert.t) : RemoteCall (Reply Message.t)
(* from('notifications').insert({...}) *)
| InsertNotification (n : NotificationInsert.t) : RemoteCall (Reply unit)
(* from('friendships').select('*').or(and(requester.eq.a,addressee.eq.b),
   and(requester.eq.b,addressee.eq.a)).maybeSingle() *)
| SelectFriendshipBetween (a b : string) : RemoteCall (Reply Friendship.t)
(* from('friendships').insert({...}) *)
| InsertFriendship (f : FriendshipInsert.t) : RemoteCall (Reply unit)
(* from('notifications').select('*').eq('user_id', u)
   .order('created_at', descending).limit(20) *)
| SelectNotifications (u : string) : RemoteCall (Reply (list Notification.t))
(* from('friendships').select(...).eq('addressee_id', u)
   .eq('status', 'pending') *)
| SelectPendingRequests (u : string) : RemoteCall (Reply (list Friendship.t))
(* from('friendships').update({status}).eq('id', id) *)
| UpdateFriendshipStatus (id : string) (st : FriendshipStatus)
  : RemoteCall (Reply unit)
(* from('notifications').update({read: true}).eq('id', id) *)
| UpdateNotificationRead (id : string) : RemoteCall (Reply unit).

Definition status_eqb (a b : FriendshipStatus) : bool :=
  match a, b with
  | pending, pending | accepted, accepted | rejected, rejected => true
  | _, _ => false
  end.

(** The two [or(and(..),and(..))] filters. *)
Definition between (a b : string) (f : Friendship.t) : bool :=
  ((Friendship.requester_id f =? a) && (Friendship.addressee_id f =? b))
  || ((Friendship.requester_id f =? b) && (Friendship.addressee_id f =? a)).

Definition in_conversation (u f : string) (m : Message.t) : bool :=
  ((Message.sender_id m =? u) && (Message.receiver_id m =? f))
  || ((Message.sender_id m =? f) && (Message.receiver_id m =? u)).

(** [order(key)]: a stable insertion sort under [le]. *)
Fixpoint insert_by {A} (le : A -> A -> bool) (x : A) (l : list A) : list A :=
  match l with
  | [] => [x]
  | y :: l' => if le x y then x :: l else y :: insert_by le x l'
  end.

Fixpoint order_by {A} (le : A -> A -> bool) (l : list A) : list A :=
  match l with
  | [] => []
  | x :: l' => insert_by le x (order_by le l')
  end.

(** The filters and orders of the two queries of [fetchNotifications] and
    of the query of [fetchMessages]. *)
Definition owned_by (u : string) (n : Notification.t) : bool :=
  Notification.user_id n =? u.

Definition pending_incoming (u : string) (f : Friendship.t) : bool :=
  (Friendship.addressee_id f =? u) && status_eqb (Friendship.status f) pending.

Definition newest_first (a b : Notification.t) : bool :=
  String.leb (Notification.created_at b) (Notification.created_at a).

Definition oldest_first (a b : Message.t) : bool :=
  String.leb (Message.created_at a) (Message.created_at b).

(** The rows [fetchNotifications] asks for: the 20 newest of user [u]. *)
Definition inbox (u : string) (st : Store.t) : list Notification.t :=
  firstn 20 (order_by newest_first (filter (owned_by u) (Store.notifications st))).

(** [maybeSingle()]: no row gives [null], one row gives the row, several
    rows give an error and no data. *)
Definition maybeSingle {A} (rows : list A) : Reply A :=
  match rows with
  | [] => mkReply None None
  | [r] => mkReply (Some r) None
  | _ => mkReply None
           (Some (RemoteError UnknownRemoteError
                    "JSON object requested, multiple (or no) rows returned"))
  end.

Definition failed {A} (e : Err) : Reply A := mkReply None (Some e).
Definition ok {A} (a : A) : Reply A := mkReply (Some a) None.
Definition done : Reply unit := mkReply None None.

Definition mark_read (f u : string) (m : Message.t) : Message.t :=
  if (Message.sender_id m =? f) && (Message.receiver_id m =? u)
     && negb (Message.read m)
  then Message.mk (Message.id m) (Message.sender_id m) (Message.receiver_id m)
         (Message.content m) (Message.media_url m) (Message.media_type m)
         (Message.file_name m) true (Message.created_at m)
  else m.

Definition set_status (id : string) (st : FriendshipStatus) (f : Friendship.t)
  : Friendship.t :=
  if Friendship.id f =? id
  then Friendship.mk (Friendship.id f) (Friendship.requester_id f)
         (Friendship.addressee_id f) st (Friendship.created_at f)
  else f.

Definition set_read (id : string) (n : Notification.t) : Notification.t :=
  if Notification.id n =? id
  then Notification.mk (Notification.id n) (Notification.user_id n)
         (Notification.type n) (Notification.content n)
         (Notification.related_id n) true (Notification.created_at n)
  else n.

Definition new_message (e : Env) (m : MessageInsert.t) : Message.t :=
  Message.mk (new_id e) (MessageInsert.sender_id m) (MessageInsert.receiver_id m)
    (MessageInsert.content m) (MessageInsert.media_url m)
    (MessageInsert.media_type m) (MessageInsert.file_name m) false (now e).

Definition new_notification (e : Env) (n : NotificationInsert.t) : Notification.t :=
  Notification.mk (new_id e) (NotificationInsert.user_id n)
    (NotificationInsert.type n) (NotificationInsert.content n)
    (NotificationInsert.related_id n) false (now e).

Definition new_friendship (e : Env) (f : FriendshipInsert.t) : Friendship.t :=
  Friendship.mk (new_id e) (FriendshipInsert.requester_id f)
    (FriendshipInsert.addressee_id f) (FriendshipInsert.status f) (now e).

(** Modelled from the spec: the store's side of each call, absent from the
    sources (a remote service).  [insert] answers the row or [Conflict]
    (a second Friendship for the same pair of users), [update] answers
    [NotFound] when the id does not resolve and [Forbidden] when the caller
    [uid] is not the addressee of the Friendship, [query] answers the rows.
    A call whose [fault] is set fails as a whole. *)
Definition serve (uid : string) (e : Env) (s : Store.t) {R} (rq : RemoteCall R)
  : Store.t * R :=
  match rq in RemoteCall R return Store.t * R with
  | SelectConversation u f =>
      match fault e with
      | Some err => (s, failed err)
      | None =>
          (s, ok (order_by oldest_first
                    (filter (in_conversation u f) (Store.messages s))))
      end
  | UpdateMessagesRead f u =>
      match fault e with
      | Some err => (s, failed err)
      | None =>
          (Store.mk (Store.friendships s)
             (map (mark_read f u) (Store.messages s))
             (Store.notifications s), done)
      end
  | StorageUpload _ _ =>
      match fault e with
      | Some err => (s, failed err)
      | None => (s, done)
      end
  | InsertMessage m =>
      match fault e with
      | Some err => (s, failed err)
      | None =>
          let row := new_message e m in
          (Store.mk (Store.friendships s) (Store.messages s ++ [row])
             (Store.notifications s), ok row)
      end
  | InsertNotification n =>
      match fault e with
      | Some err => (s, failed err)
      | None =>
          (Store.mk (Store.friendships s) (Store.messages s)
             (Store.notifications s ++ [new_notification e n]), done)
      end
  | SelectFriendshipBetween a b =>
      match fault e with
      | Some err => (s, failed err)
      | None => (s, maybeSingle (filter (between a b) (Store.friendships s)))
      end
  | InsertFriendship f =>
      match fault e with
      | Some err => (s, failed err)
      | None =>
          if existsb (between (FriendshipInsert.requester_id f)
                        (FriendshipInsert.addressee_id f)) (Store.friendships s)
          then (s, failed (RemoteError Conflict "duplicate friendship"))
          else (Store.mk (Store.friendships s ++ [new_friendship e f])
                  (Store.messages s) (Store.notifications s), done)
      end
  | SelectNotifications u =>
      match fault e with
      | Some err => (s, failed err)
      | None =>
          (s, ok (inbox u s))
      end
  | SelectPendingRequests u =>
      match fault e with
      | Some err => (s, failed err)
      | None =>
          (s, ok (filter (pending_incoming u) (Store.friendships s)))
      end
  | UpdateFriendshipStatus id st =>
      match fault e with
      | Some err => (s, failed err)
      | None =>
          match find (fun f => Friendship.id f =? id) (Store.friendships s) with
          | None => (s, failed (RemoteError NotFound "friendship not found"))
          | Some f =>
              if Friendship.addressee_id f =? uid
              then (Store.mk (map (set_status id st) (Store.friendships s))
                      (Store.messages s) (Store.notifications s), done)
              else (s, failed (RemoteError Forbidden "not the addressee"))
          end
      end
  | UpdateNotificationRead id =>
      match fault e with
      | Some err => (s, failed err)
      | None =>
          (Store.mk (Store.friendships s) (Store.messages s)
             (map (set_read id) (Store.notifications s)), done)
      end
  end.

(** ** Asynchronous programs

    An [async] function over a component state [S].  [Update] is a state
    setter ([setMessages(prev => ..)], [toast(..)]), [Call] an awaited remote
    call with the rest of the function as continuation, [Fork] a call of
    another [async] function that is not awaited, [Throw] a [throw]. *)
Inductive Prog (S : Type) (A : Type) : Type :=
| Ret (a : A)
| Throw (e : Err)
| Update (f : S -> S) (k : Prog S A)
| Call {R : Type} (rq : RemoteCall R) (k : R -> Prog S A)
| Fork (child : Prog S unit) (k : Prog S A).
Arguments Ret {S A} _.
Arguments Throw {S A} _.
Arguments Update {S A} _ _.
Arguments Call {S A R} _ _.
Arguments Fork {S A} _ _.

Fixpoint bind {S A B : Type} (p : Prog S A) (f : A -> Prog S B) : Prog S B :=
  match p with
  | Ret a => f a
  | Throw e => Throw e
  | Update g k => Update g (bind k f)
  | Call rq k => Call rq (fun r => bind (k r) f)
  | Fork c k => Fork c (bind k f)
  end.

Declare Scope prog_scope.
Delimit Scope prog_scope with prog.
Notation "x <- p ;; q" := (bind p (fun x => q))
  (at level 61, p at next level, right associativity) : prog_scope.
Notation "p ;; q" := (bind p (fun _ => q))
  (at level 61, right associativity) : prog_scope.
Local Open Scope prog_scope.

Definition update {S} (f : S -> S) : Prog S unit := Update f (Ret tt).
Definition await {S R} (rq : RemoteCall R) : Prog S R := Call rq (fun r => Ret r).
Definition fork {S} (child : Prog S unit) : Prog S unit := Fork child (Ret tt).

(** [try { p } catch (error) { h error }] *)
Fixpoint try_catch {S A : Type} (p : Prog S A) (h : Err -> Prog S A) : Prog S A :=
  match p with
  | Ret a => Ret a
  | Throw e => h e
  | Update g k => Update g (try_catch k h)
  | Call rq k => Call rq (fun r => try_catch (k r) h)
  | Fork c k => Fork c (try_catch k h)
  end.

(** [try { p } finally { fin }]: [fin] runs on every way out of [p]. *)
Fixpoint finally {S A : Type} (p : Prog S A) (fin : Prog S unit) : Prog S A :=
  match p with
  | Ret a => fin ;; Ret a
  | Throw e => fin ;; Throw e
  | Update g k => Update g (finally k fin)
  | Call rq k => Call rq (fun r => finally (k r) fin)
  | Fork c k => Fork c (finally k fin)
  end.

(** The synchronous part of a program: everything up to its first [await].
    A forked callee runs its own synchronous part on the spot and is then
    left suspended; the suspended callees are returned last. *)
Fixpoint advance {S A : Type} (p : Prog S A) (s : S)
  : S * Prog S A * list (Prog S unit) :=
  match p with
  | Update g k => advance k (g s)
  | Fork c k =>
      let '(s1, c', fs1) := advance c s in
      let '(s2, k', fs2) := advance k s1 in
      (s2, k', fs1 ++ [c'] ++ fs2)
  | _ => (s, p, [])
  end.

Inductive Completion (A : Type) :=
| Returned (a : A)
| Uncaught (e : Err).
Arguments Returned {A} _.
Arguments Uncaught {A} _.

Record Run (S A : Type) := mkRun {
  completion : Completion A;
  store_after : Store.t;
  state_after : S;
  suspended : list (Prog S unit) }.
Arguments mkRun {S A} _ _ _ _.
Arguments completion {S A} _.
Arguments store_after {S A} _.
Arguments state_after {S A} _.
Arguments suspended {S A} _.

(** A call that goes through, for a row without id and timestamp. *)
Definition quiet : Env := mkEnv None "" "".

(** A program run in one piece against the store on behalf of the signed-in
    user [uid]: the n-th remote call is served with the n-th element of
    [envs] ([quiet] when the list is exhausted).  Forked callees are not
    run past their synchronous part. *)
Fixpoint run {S A : Type} (uid : string) (p : Prog S A) (envs : list Env)
  (st : Store.t) (s : S) : Run S A :=
  match p with
  | Ret a => mkRun (Returned a) st s []
  | Throw e => mkRun (Uncaught e) st s []
  | Update g k => run uid k envs st (g s)
  | Call rq k =>
      let '(st', r) := serve uid (hd quiet envs) st rq in
      run uid (k r) (tl envs) st' s
  | Fork c k =>
      let '(s1, c', fs) := advance c s in
      let r := run uid k envs st s1 in
      mkRun (completion r) (store_after r) (state_after r)
        (fs ++ [c'] ++ suspended r)
  end.

(** Replace the [i]-th element of a list (nothing happens out of range). *)
Fixpoint replace_nth {A} (i : nat) (x : A) (l : list A) : list A :=
  match l, i with
  | [], _ => []
  | _ :: l', O => x :: l'
  | y :: l', S i' => y :: replace_nth i' x l'
  end.

(** ** The event loop

    Everything runs on one thread; an [await] hands control back to the
    loop.  [threads] holds the [async] functions in flight, each stopped at
    a remote call or carrying a reply it has not yet been resumed with. *)
Record Loop (S : Type) := mkLoop {
  store : Store.t;
  ui : S;
  threads : list (Prog S unit) }.
Arguments mkLoop {S} _ _ _.
Arguments store {S} _.
Arguments ui {S} _.
Arguments threads {S} _.

(** An event handler calls [p]: its synchronous part runs at once. *)
Definition spawn {S} (p : Prog S unit) (w : Loop S) : Loop S :=
  let '(s, p', fs) := advance p (ui w) in
  mkLoop (store w) s (threads w ++ p' :: fs).

(** The store serves the pending call of thread [i]. *)
Definition commit {S} (uid : string) (i : nat) (e : Env) (w : Loop S) : Loop S :=
  match nth_error (threads w) i with
  | Some (Call rq k) =>
      let '(store', r) := serve uid e (store w) rq in
      mkLoop store' (ui w) (replace_nth i (k r) (threads w))
  | _ => w
  end.

(** Thread [i] is resumed with the reply it carries. *)
Definition resume {S} (i : nat) (w : Loop S) : Loop S :=
  match nth_error (threads w) i with
  | Some p =>
      let '(s, p', fs) := advance p (ui w) in
      mkLoop (store w) s (replace_nth i p' (threads w) ++ fs)
  | None => w
  end.

(** A callback that only sets state. *)
Definition poke {S} (f : S -> S) (w : Loop S) : Loop S :=
  mkLoop (store w) (f (ui w)) (threads w).

(** ** The push feed *)

Inductive ChangeType := INSERT | UPDATE | DELETE.

Definition ChangeType_eqb (a b : ChangeType) : bool :=
  match a, b with
  | INSERT, INSERT | UPDATE, UPDATE | DELETE, DELETE => true
  | _, _ => false
  end.

(** One change of the [messages] table as pushed to a subscriber;
    [new] is [payload.new]. *)
Record ChangeEvent := mkEvent {
  eventType : ChangeType;
  new : Message.t }.

(** ** components/chat/ChatWindow.tsx *)
Module ChatWindow.

(** A realtime channel as [ChatWindow] creates it: its topic, the event
    it listens to, and the two ids of its row filter. *)
Record Channel := mkChannel {
  topic : string;
  event : ChangeType;
  filter_user : string;
  filter_friend : string }.

(** The component's [useState] cells, the toasts it has shown, and the
    channels of the realtime client. *)
Record State := mkState {
  messages : list Message.t;
  newMessage : string;
  loading : bool;
  selectedFile : option File.t;
  previewUrl : option string;
  toasts : list Toast;
  channels : list Channel }.

Definition setMessages (f : list Message.t -> list Message.t) (s : State) : State :=
  mkState (f (messages s)) (newMessage s) (loading s) (selectedFile s)
    (previewUrl s) (toasts s) (channels s).

Definition setNewMessage (v : string) (s : State) : State :=
  mkState (messages s) v (loading s) (selectedFile s) (previewUrl s)
    (toasts s) (channels s).

Definition setLoading (v : bool) (s : State) : State :=
  mkState (messages s) (newMessage s) v (selectedFile s) (previewUrl s)
    (toasts s) (channels s).

Definition setSelectedFile (v : option File.t) (s : State) : State :=
  mkState (messages s) (newMessage s) (loading s) v (previewUrl s)
    (toasts s) (channels s).

Definition setPreviewUrl (v : option string) (s : State) : State :=
  mkState (messages s) (newMessage s) (loading s) (selectedFile s) v
    (toasts s) (channels s).

Definition toast (t : Toast) (s : State) : State :=
  mkState (messages s) (newMessage s) (loading s) (selectedFile s)
    (previewUrl s) (toasts s ++ [t]) (channels s).

Definition setChannels (f : list Channel -> list Channel) (s : State) : State :=
  mkState (messages s) (newMessage s) (loading s) (selectedFile s)
    (previewUrl s) (toasts s) (f (channels s)).

(** [fetchMessages] *)
Definition fetchMessages (user : option User.t) (friend : option Profile.t)
  : Prog State unit :=
  match user, friend with
  | Some u, Some fr =>
      try_catch
        (r <- await (SelectConversation (User.id u) (Profile.id fr)) ;;
         match error r with
         | Some e => Throw e
         | None =>
             update (setMessages
                       (fun _ => match data r with Some d => d | None => [] end)) ;;
             (* Mark messages as read *)
             _ <- await (UpdateMessagesRead (Profile.id fr) (User.id u)) ;;
             Ret tt
         end)
        (fun _ => Ret tt)
  | _, _ => Ret tt
  end.

(** The callback of the channel: [payload.new] is appended unless a
    message with its id is in the log. *)
Definition on_insert (newMsg : Message.t) (prev : list Message.t)
  : list Message.t :=
  (* Avoid duplicates *)
  if existsb (fun m => Message.id m =? Message.id newMsg) prev then prev
  else prev ++ [newMsg].

Definition channel_for (u : User.t) (fr : Profile.t) : Channel :=
  mkChannel ("messages-" ++ User.id u ++ "-" ++ Profile.id fr)%string INSERT
    (User.id u) (Profile.id fr).

(** Modelled from the spec: [subscribe] belongs to the realtime client,
    which is not among the sources.  A subscription is live from
    [subscribe] until [removeChannel] releases it. *)
Definition subscribe (ch : Channel) : State -> State :=
  setChannels (fun cs => cs ++ [ch]).

(** Modelled from the spec: [removeChannel] releases the subscription at
    once; the channel is known by its topic. *)
Definition removeChannel (ch : Channel) : State -> State :=
  setChannels (filter (fun c => negb (topic c =? topic ch))).

(** The body of the [useEffect] on [[user, friend]]; the result is the
    channel its cleanup function closes over, if it returns one. *)
Definition effect (user : option User.t) (friend : option Profile.t)
  : Prog State (option Channel) :=
  fork (fetchMessages user friend) ;;
  match user, friend with
  | Some u, Some fr =>
      let channel := channel_for u fr in
      update (subscribe channel) ;;
      Ret (Some channel)
  | _, _ => Ret None
  end.

Definition cleanup (channel : Channel) : State -> State :=
  removeChannel channel.

(** Modelled from the spec: a pushed change reaches the callback of every
    live channel whose event and row filter it matches. *)
Definition matches (ch : Channel) (ev : ChangeEvent) : bool :=
  ChangeType_eqb (event ch) (eventType ev)
  && in_conversation (filter_user ch) (filter_friend ch) (new ev).

(** One pushed change handed to the callbacks of the live channels. *)
Definition deliver (ev : ChangeEvent) (s : State) : State :=
  fold_left
    (fun s' ch => if matches ch ev then setMessages (on_insert (new ev)) s' else s')
    (channels s) s.

(** [getMediaType] *)
Definition getMediaType (f : File.t) : MediaType.t :=
  if File.type f =? "image/gif" then MediaType.gif
  else if startsWith (File.type f) "image/" then MediaType.image
  else if startsWith (File.type f) "video/" then MediaType.video
  else MediaType.file.

(** [handleFileSelect]; [blob] is the URL [URL.createObjectURL] hands out. *)
Definition handleFileSelect (file : option File.t) (blob : string) (s : State)
  : State :=
  match file with
  | None => s
  | Some f =>
      (* Max 50MB *)
      if (50 * 1024 * 1024 <? File.size f)%N
      then toast (mkToast "File too large" "Maximum file size is 50MB" destructive) s
      else
        setPreviewUrl
          (if startsWith (File.type f) "image/" || startsWith (File.type f) "video/"
           then Some blob else None)
          (setSelectedFile (Some f) s)
  end.

(** [clearSelectedFile]; [previewUrl] is the value the handler closes over.
    Revoking the object URL and emptying the file input element leave the
    state as it is. *)
Definition clearSelectedFile (previewUrl : option string) (s : State) : State :=
  match previewUrl with
  | Some _ => setPreviewUrl None (setSelectedFile None s)
  | None => setSelectedFile None s
  end.

(** Modelled from the spec: the durable URL of an uploaded blob.  The
    project URL is configured outside the sources; the URL is kept relative
    to it. *)
Definition getPublicUrl (path : string) : string :=
  ("/storage/v1/object/public/chat-media/" ++ path)%string.

(** [uploadFile]; [clock] is the reading of [Date.now()]. *)
Definition uploadFile (u : User.t) (f : File.t) (clock : string)
  : Prog State (option string) :=
  let fileExt := split_last "." (File.name f) in
  let fileName := (User.id u ++ "/" ++ clock ++ "." ++ fileExt)%string in
  r <- await (StorageUpload fileName f) ;;
  match error r with
  | Some _ => Ret None
  | None => Ret (Some (getPublicUrl fileName))
  end.

(** [!mediaUrl] for a [string | null]. *)
Definition falsy (o : option string) : bool :=
  match o with
  | None => true
  | Some v => negb (truthy v)
  end.

(** [sendMessage], called with the values of the render it closes over. *)
Definition sendMessage (user : option User.t) (friend : option Profile.t)
  (newMessage : string) (selectedFile : option File.t)
  (previewUrl : option string) (clock : string) : Prog State unit :=
  match user, friend with
  | Some u, Some fr =>
      if negb (truthy (trim newMessage))
         && match selectedFile with None => true | Some _ => false end
      then Ret tt
      else
        update (setLoading true) ;;
        finally
          (try_catch
             (media <-
                match selectedFile with
                | Some f =>
                    mediaUrl <- uploadFile u f clock ;;
                    if falsy mediaUrl
                    then Throw (JsError "Failed to upload file")
                    else Ret (mediaUrl, Some (getMediaType f), Some (File.name f))
                | None => Ret (None, None, None)
                end ;;
              let '(mediaUrl, mediaType, fileName) := media in
              let messageContent :=
                if truthy (trim newMessage) then Some (trim newMessage) else None in
              r <- await (InsertMessage
                            (MessageInsert.mk (User.id u) (Profile.id fr)
                               messageContent mediaUrl mediaType fileName)) ;;
              match error r with
              | Some e => Throw e
              | None =>
                  (* Add message to local state immediately *)
                  match data r with
                  | Some d => update (setMessages (fun prev => prev ++ [d]))
                  | None => Ret tt
                  end ;;
                  (* Create notification for receiver *)
                  _ <- await (InsertNotification
                                (NotificationInsert.mk (Profile.id fr)
                                   NotificationType.message
                                   ("New message from " ++
                                    match User.email u with
                                    | Some em => split_first "@" em
                                    | None => "undefined"
                                    end)%string
                                   (Some (User.id u)))) ;;
                  update (setNewMessage "") ;;
                  update (clearSelectedFile previewUrl)
              end)
             (fun e => update (toast (mkToast "Error" (message e) destructive))))
          (update (setLoading false))
  | _, _ => Ret tt
  end.

(** *** The component under the event loop

    [teardown] is the channel the cleanup of the last effect closes over. *)
Record World := mkWorld {
  loop : Loop State;
  user : option User.t;
  friend : option Profile.t;
  teardown : option Channel }.

Inductive Step :=
(* the parent renders the component with other [user]/[friend] props:
   React runs the cleanup of the previous effect, then the effect *)
| Render (user' : option User.t) (friend' : option Profile.t)
(* the text of the input changes *)
| Input (text : string)
(* a file is chosen or the chooser is dismissed, the chosen file is dropped *)
| Pick (file : option File.t) (blob : string)
| Clear
(* the form is submitted *)
| Submit (clock : string)
(* the store serves the pending call of thread [i] *)
| Commit (i : nat) (e : Env)
(* thread [i] is resumed with the reply it carries *)
| Resume (i : nat)
(* the feed pushes a change of the [messages] table *)
| Feed (ev : ChangeEvent).

Definition uid (w : World) : string :=
  match user w with
  | Some u => User.id u
  | None => ""
  end.

(** Unmounting the previous effect: React calls its cleanup, if any. *)
Definition run_cleanup (w : World) : World :=
  match teardown w with
  | Some ch => mkWorld (poke (cleanup ch) (loop w)) (user w) (friend w) None
  | None => w
  end.

(** Mounting the effect for the props [user'] and [friend']. *)
Definition run_effect (user' : option User.t) (friend' : option Profile.t)
  (w : World) : World :=
  let '(s, p, fs) := advance (effect user' friend') (ui (loop w)) in
  mkWorld (mkLoop (store (loop w)) s (threads (loop w) ++ fs)) user' friend'
    match p with Ret c => c | _ => None end.

Definition step (w : World) (st : Step) : World :=
  match st with
  | Render user' friend' => run_effect user' friend' (run_cleanup w)
  | Input text =>
      mkWorld (poke (setNewMessage text) (loop w)) (user w) (friend w) (teardown w)
  | Pick file blob =>
      mkWorld (poke (handleFileSelect file blob) (loop w)) (user w) (friend w)
        (teardown w)
  | Clear =>
      mkWorld (poke (clearSelectedFile (previewUrl (ui (loop w)))) (loop w))
        (user w) (friend w) (teardown w)
  | Submit clock =>
      mkWorld
        (spawn (sendMessage (user w) (friend w) (newMessage (ui (loop w)))
                  (selectedFile (ui (loop w))) (previewUrl (ui (loop w))) clock)
           (loop w))
        (user w) (friend w) (teardown w)
  | Commit i e =>
      mkWorld (commit (uid w) i e (loop w)) (user w) (friend w) (teardown w)
  | Resume i =>
      mkWorld (resume i (loop w)) (user w) (friend w) (teardown w)
  | Feed ev =>
      mkWorld (poke (deliver ev) (loop w)) (user w) (friend w) (teardown w)
  end.

Definition exec (w : World) (trace : list Step) : World :=
  fold_left step trace w.

(** The component before its first render, over a store [st]. *)
Definition initial (st : Store.t) : World :=
  mkWorld (mkLoop st (mkState [] "" false None None [] []) []) None None None.

End ChatWindow.

(** ** components/chat/UserSearch.tsx

    The component is rendered under [ProtectedRoute] (App.tsx), which
    redirects when nobody is signed in: [user] is present.  The search
    itself ([handleSearch]) reads profiles only and is left out. *)
Module UserSearch.

(** The cells [sendFriendRequest] writes, and the toasts shown. *)
Record State := mkState {
  sendingRequest : option string;
  toasts : list Toast }.

Definition setSendingRequest (v : option string) (s : State) : State :=
  mkState v (toasts s).

Definition toast (t : Toast) (s : State) : State :=
  mkState (sendingRequest s) (toasts s ++ [t]).

Definition request_exists (existing : Friendship.t) : Toast :=
  mkToast "Request Already Exists"
    (if status_eqb (Friendship.status existing) accepted
     then "You are already friends with this user."
     else "A friend request already exists.")
    destructive.

Definition request_sent (username : string) : Toast :=
  mkToast "Request Sent" ("Friend request sent to " ++ username ++ "!")%string
    default.

(** [sendFriendRequest] *)
Definition sendFriendRequest (user : User.t) (addresseeId username : string)
  : Prog State unit :=
  update (setSendingRequest (Some addresseeId)) ;;
  finally
    (try_catch
       ((* Check if friendship already exists *)
        r <- await (SelectFriendshipBetween (User.id user) addresseeId) ;;
        match data r with
        | Some existing => update (toast (request_exists existing))
        | None =>
            (* Create friendship request *)
            r' <- await (InsertFriendship
                           (FriendshipInsert.mk (User.id user) addresseeId pending)) ;;
            match error r' with
            | Some e => Throw e
            | None =>
                (* Create notification *)
                _ <- await (InsertNotification
                              (NotificationInsert.mk addresseeId
                                 NotificationType.friend_request
                                 "You have a new friend request"
                                 (Some (User.id user)))) ;;
                update (toast (request_sent username))
            end
        end)
       (fun e => update (toast (mkToast "Error" (message e) destructive))))
    (update (setSendingRequest None)).

End UserSearch.

(** ** components/chat/Notifications.tsx *)
Module Notifications.

Record State := mkState {
  notifications : list Notification.t;
  pendingRequests : list Friendship.t;
  loading : bool;
  toasts : list Toast }.

Definition setNotifications (v : list Notification.t) (s : State) : State :=
  mkState v (pendingRequests s) (loading s) (toasts s).

Definition setPendingRequests (v : list Friendship.t) (s : State) : State :=
  mkState (notifications s) v (loading s) (toasts s).

Definition setLoading (v : bool) (s : State) : State :=
  mkState (notifications s) (pendingRequests s) v (toasts s).

Definition toast (t : Toast) (s : State) : State :=
  mkState (notifications s) (pendingRequests s) (loading s) (toasts s ++ [t]).

Definition or_empty {A} (d : option (list A)) : list A :=
  match d with
  | Some l => l
  | None => []
  end.

(** [fetchNotifications] *)
Definition fetchNotifications (user : option User.t) : Prog State unit :=
  match user with
  | None => Ret tt
  | Some u =>
      finally
        (try_catch
           (r <- await (SelectNotifications (User.id u)) ;;
            match error r with
            | Some e => Throw e
            | None =>
                update (setNotifications (or_empty (data r))) ;;
                r' <- await (SelectPendingRequests (User.id u)) ;;
                match error r' with
                | Some e => Throw e
                | None => update (setPendingRequests (or_empty (data r')))
                end
            end)
           (fun _ => Ret tt))
        (update (setLoading false))
  end.

Definition responded (accept : bool) : Toast :=
  mkToast (if accept then "Friend Added" else "Request Declined")
    (if accept then "You are now friends!" else "Friend request declined.")
    default.

(** [handleFriendRequest], called with the [pendingRequests] of the render
    it closes over. *)
Definition handleFriendRequest (user : option User.t)
  (pendingRequests : list Friendship.t) (friendshipId : string) (accept : bool)
  : Prog State unit :=
  try_catch
    (let friendship :=
       find (fun r => Friendship.id r =? friendshipId) pendingRequests in
     r <- await (UpdateFriendshipStatus friendshipId
                   (if accept then accepted else rejected)) ;;
     match error r with
     | Some e => Throw e
     | None =>
         match accept, friendship with
         | true, Some f =>
             (* Notify the requester *)
             _ <- await (InsertNotification
                           (NotificationInsert.mk (Friendship.requester_id f)
                              NotificationType.friend_accepted
                              "Your friend request was accepted!"
                              (option_map User.id user))) ;;
             Ret tt
         | _, _ => Ret tt
         end ;;
         update (toast (responded accept)) ;;
         fork (fetchNotifications user)
     end)
    (fun e => update (toast (mkToast "Error" (message e) destructive))).

(** [markAsRead] *)
Definition markAsRead (user : option User.t) (notificationId : string)
  : Prog State unit :=
  _ <- await (UpdateNotificationRead notificationId) ;;
  fork (fetchNotifications user).

(** [unreadCount] *)
Definition unreadCount (s : State) : nat :=
  length (filter (fun n => negb (Notification.read n)) (notifications s))
  + length (pendingRequests s).

(** *** The component under the event loop *)
Inductive Step :=
(* a change on one of the two topics is pushed: the callback refetches *)
| Feed
(* the accept or decline button of a listed request is pressed; the
   buttons exist for the rows of [pendingRequests] only *)
| Press (friendshipId : string) (accept : bool)
(* a notification is clicked *)
| Click (notificationId : string)
| Commit (i : nat) (e : Env)
| Resume (i : nat).

Definition step (user : User.t) (w : Loop State) (st : Step) : Loop State :=
  match st with
  | Feed => spawn (fetchNotifications (Some user)) w
  | Press friendshipId accept =>
      if existsb (fun r => Friendship.id r =? friendshipId) (pendingRequests (ui w))
      then spawn (handleFriendRequest (Some user) (pendingRequests (ui w))
                    friendshipId accept) w
      else w
  | Click notificationId =>
      if existsb (fun n => Notification.id n =? notificationId) (notifications (ui w))
      then spawn (markAsRead (Some user) notificationId) w
      else w
  | Commit i e => commit (User.id user) i e w
  | Resume i => resume i w
  end.

Definition exec (user : User.t) (w : Loop State) (trace : list Step) : Loop State :=
  fold_left (step user) trace w.

End Notifications.

(** ** Vocabulary of the statements *)

(** The row a log holds for an id, and how many entries carry the id. *)
Definition find_id (i : string) (log : list Message.t) : option Message.t :=
  find (fun m => Message.id m =? i) log.

Definition count_id (i : string) (log : list Message.t) : nat :=
  length (filter (fun m => Message.id m =? i) log).

(** A pushed change is applied when some live channel matches it. *)
Definition applied (chs : list ChatWindow.Channel) (ev : ChangeEvent) : bool :=
  existsb (fun ch => ChatWindow.matches ch ev) chs.

Definition error_toast (e : Err) : Toast :=
  mkToast "Error" (message e) destructive.

(** A Friendship row between the unordered pair [{a, b}]. *)
Definition pair_row (a b : string) (f : Friendship.t) : Prop :=
  (Friendship.requester_id f = a /\ Friendship.addressee_id f = b)
  \/ (Friendship.requester_id f = b /\ Friendship.addressee_id f = a).

(** An unread row of the inbox. *)
Definition unread (n : Notification.t) : bool := negb (Notification.read n).

(** A program none of whose state updates touches the realtime channels. *)
Fixpoint tame {A : Type} (p : Prog ChatWindow.State A) : Prop :=
  match p with
  | Ret _ | Throw _ => True
  | Update f k =>
      (forall s, ChatWindow.channels (f s) = ChatWindow.channels s) /\ tame k
  | Call _ k => forall r, tame (k r)
  | Fork c k => tame c /\ tame k
  end.

(** The component holds at most the one channel its last effect opened,
    the channel of the conversation in its props, and its threads leave
    the channels alone. *)
Definition well_subscribed (w : ChatWindow.World) : Prop :=
  Forall tame (threads (ChatWindow.loop w))
  /\ ChatWindow.teardown w
     = match ChatWindow.user w, ChatWindow.friend w with
       | Some u, Some fr => Some (ChatWindow.channel_for u fr)
       | _, _ => None
       end
  /\ ChatWindow.channels (ui (ChatWindow.loop w))
     = match ChatWindow.teardown w with
       | Some ch => [ch]
       | None => []
       end.

(** A step that is no pushed change, or a pushed change channel [ch] takes. *)
Definition taken_by (ch : ChatWindow.Channel) (st : ChatWindow.Step) : bool :=
  match st with
  | ChatWindow.Feed ev => ChatWindow.matches ch ev
  | _ => true
  end.

Definition is_render (st : ChatWindow.Step) : bool :=
  match st with
  | ChatWindow.Render _ _ => true
  | _ => false
  end.

(** Modelled from the spec: the blob storage of the store
    ([uploadBlob(bucket, path, bytes)]), which is no table of [Store.t].  An
    upload that goes through puts the file under its path, a failed one
    puts nothing; no call of the components removes an object. *)
Definition stored (e : Env) {R : Type} (rq : RemoteCall R)
  : list (string * File.t) :=
  match rq with
  | StorageUpload path f =>
      match fault e with
      | Some _ => []
      | None => [(path, f)]
      end
  | _ => []
  end.

(** The objects a program puts into the bucket when it is run in one piece,
    in the order of its calls; the calls are served as [run] serves them. *)
Fixpoint uploads {S A : Type} (uid : string) (p : Prog S A) (envs : list Env)
  (st : Store.t) : list (string * File.t) :=
  match p with
  | Ret _ | Throw _ => []
  | Update _ k => uploads uid k envs st
  | Call rq k =>
      let '(st', r) := serve uid (hd quiet envs) st rq in
      stored (hd quiet envs) rq ++ uploads uid (k r) (tl envs) st'
  | Fork _ k => uploads uid k envs st
  end.

(** ** components/chat/FriendsList.tsx

    [fetchFriends] awaits one query.  Its reply is an argument here, and the
    store's side of the query is [select_friends]. *)
Module FriendsList.

(** A row of the query: the Friendship with the two joined profiles
    [requester] and [addressee], [null] when the join finds none. *)
Record Joined := mkJoined {
  row : Friendship.t;
  requester : option Profile.t;
  addressee : option Profile.t }.

Record State := mkState {
  friends : list Profile.t;
  loading : bool }.

(** [.filter(Boolean)] on an array of objects and [null]s. *)
Fixpoint filter_Boolean {A} (l : list (option A)) : list A :=
  match l with
  | [] => []
  | Some x :: l' => x :: filter_Boolean l'
  | None :: l' => filter_Boolean l'
  end.

(** [friendProfiles]: the other party of every row. *)
Definition friendProfiles (uid : string) (friendships : option (list Joined))
  : list Profile.t :=
  match friendships with
  | Some rows =>
      filter_Boolean
        (map (fun f => if Friendship.requester_id (row f) =? uid
                       then addressee f else requester f) rows)
  | None => []
  end.

(** [fetchFriends], resumed with the reply of its query. *)
Definition fetchFriends (user : option User.t) (reply : Reply (list Joined))
  (s : State) : State :=
  match user with
  | None => s
  | Some u =>
      match error reply with
      | Some _ => mkState (friends s) false
      | None => mkState (friendProfiles (User.id u) (data reply)) false
      end
  end.

(** The filter of the query: [.eq('status', 'accepted')
    .or(requester_id.eq.u, addressee_id.eq.u)]. *)
Definition accepted_touching (u : string) (f : Friendship.t) : bool :=
  status_eqb (Friendship.status f) accepted
  && ((Friendship.requester_id f =? u) || (Friendship.addressee_id f =? u)).

(** The join on a foreign key: the profile with that id. *)
Definition profile_of (profiles : list Profile.t) (id : string)
  : option Profile.t :=
  find (fun p => Profile.id p =? id) profiles.

(** Modelled from the spec: the store's side of the query, over the
    [profiles] table, which the store record leaves out. *)
Definition select_friends (profiles : list Profile.t) (u : string) (st : Store.t)
  : Reply (list Joined) :=
  ok (map (fun f => mkJoined f (profile_of profiles (Friendship.requester_id f))
                      (profile_of profiles (Friendship.addressee_id f)))
        (filter (accepted_touching u) (Store.friendships st))).

End FriendsList.

(** ** pages/SetUsername.tsx: the username schema *)
Module SetUsername.

(** The character class [[a-zA-Z0-9_]]. *)
Definition is_word (c : ascii) : bool :=
  let n := nat_of_ascii c in
  (Nat.leb 48 n && Nat.leb n 57) || (Nat.leb 65 n && Nat.leb n 90)
  || (Nat.leb 97 n && Nat.leb n 122) || Nat.eqb n 95.

(** [/^[a-zA-Z0-9_]+$/.test(s)] *)
Definition word_only (s : string) : bool :=
  negb (s =? "") && forallb is_word (list_ascii_of_string s).

(** The issues of [usernameSchema.safeParse(s)], one per failed check in
    the order the checks are chained: [min(3)], [max(20)], [regex].  A
    string is read as its sequence of characters, [String.length] being
    their number. *)
Definition issues (s : string) : list string :=
  (if Nat.ltb (String.length s) 3
   then ["Username must be at least 3 characters"] else [])
  ++ (if Nat.ltb 20 (String.length s)
      then ["Username must be less than 20 characters"] else [])
  ++ (if word_only s then []
      else ["Username can only contain letters, numbers, and underscores"]).

(** [validation.success] and [validation.error.errors[0].message]. *)
Definition success (s : string) : bool :=
  match issues s with
  | [] => true
  | _ => false
  end.

Definition first_message (s : string) : option string := hd_error (issues s).

(** [toLowerCase] on the letters A to Z, the only capitals the schema
    lets through. *)
Definition lower (c : ascii) : ascii :=
  let n := nat_of_ascii c in
  if Nat.leb 65 n && Nat.leb n 90 then ascii_of_nat (n + 32) else c.

Fixpoint toLowerCase (s : string) : string :=
  match s with
  | EmptyString => EmptyString
  | String c s' => String (lower c) (toLowerCase s')
  end.

(** What [handleSubmit] does before its remote call: the toast of a failed
    validation, or the username it writes. *)
Definition validated (username : string) : Toast + string :=
  match first_message username with
  | Some m => inl (mkToast "Invalid Username" m destructive)
  | None => inr (toLowerCase username)
  end.

End SetUsername.

(** ** Vocabulary of the added statements *)

(** A string of white space only. *)
Definition blank (s : string) : bool :=
  forallb is_space (list_ascii_of_string s).

(** The ids of a log. *)
Definition ids (log : list Message.t) : list string := map Message.id log.

(** A message sent by [f] to [u]. *)
Definition sent_to (f u : string) (m : Message.t) : bool :=
  (Message.sender_id m =? f) && (Message.receiver_id m =? u).

(** One remote call of some client: who calls, what the server adds, and
    the call; and a sequence of such calls served one after the other. *)
Inductive Served :=
| served (uid : string) (e : Env) {R : Type} (rq : RemoteCall R).

Definition serve_all (calls : list Served) (st : Store.t) : Store.t :=
  fold_left
    (fun st' c => match c with served uid e rq => fst (serve uid e st' rq) end)
    calls st.

(** * Properties *)

(** ** [getMediaType] *)

(** C10: the media kind of an attachment depends on its MIME type only:
    [gif] for ["image/gif"], [image] for any other type that starts with
    ["image/"], [video] for a type that starts with ["video/"], and [file]
    for every other type. *)
Theorem getMediaType_by_mime_type (f : File.t) :
  (File.type f = "image/gif" -> ChatWindow.getMediaType f = MediaType.gif)
  /\ (startsWith (File.type f) "image/" = true -> File.type f <> "image/gif" ->
      ChatWindow.getMediaType f = MediaType.image)
  /\ (startsWith (File.type f) "video/" = true ->
      ChatWindow.getMediaType f = MediaType.video)
  /\ (File.type f <> "image/gif" -> startsWith (File.type f) "image/" = false ->
      startsWith (File.type f) "video/" = false ->
      ChatWindow.getMediaType f = MediaType.file)
  /\ (forall g, File.type g = File.type f ->
      ChatWindow.getMediaType g = ChatWindow.getMediaType f).
Proof.
  unfold ChatWindow.getMediaType, startsWith.
  repeat split.
  - intros ->. reflexivity.
  - intros Hp Hne. apply String.eqb_neq in Hne. now rewrite Hne, Hp.
  - intros Hv.
    assert (Hg : (File.type f =? "image/gif") = false).
    { apply String.eqb_neq. intros E. rewrite E in Hv. cbn in Hv. discriminate Hv. }
    assert (Hi : String.prefix "image/" (File.type f) = false).
    { destruct (File.type f) as [|c s]; [discriminate|].
      cbn [String.prefix].
      destruct (Ascii.ascii_dec "i" c) as [<-|]; [|reflexivity].
      cbn in Hv. discriminate Hv. }
    now rewrite Hg, Hi, Hv.
  - intros Hne Hi Hv. apply String.eqb_neq in Hne. now rewrite Hne, Hi, Hv.
  - intros g ->. reflexivity.
Qed.

Lemma getMediaType_by_mime_type_witness :
  ChatWindow.getMediaType (File.mk "cat.png" "image/png" 2048%N) = MediaType.image.
Proof.
  apply (proj1 (proj2 (getMediaType_by_mime_type
                         (File.mk "cat.png" "image/png" 2048%N)))).
  - reflexivity.
  - discriminate.
Defined.

(** ** [sendMessage] run in one piece *)

(** [sendMessage] with an attachment whose upload fails. *)
Lemma sendMessage_upload_failed_run
  (u : User.t) (fr : Profile.t) (text : string) (f : File.t)
  (purl : option string) (clock : string) (e : Env) (envs : list Env)
  (st : Store.t) (s : ChatWindow.State) (err : Err) :
  fault e = Some err ->
  run (User.id u)
    (ChatWindow.sendMessage (Some u) (Some fr) text (Some f) purl clock)
    (e :: envs) st s
  = mkRun (Returned tt) st
      (ChatWindow.mkState (ChatWindow.messages s) (ChatWindow.newMessage s)
         false (ChatWindow.selectedFile s) (ChatWindow.previewUrl s)
         (ChatWindow.toasts s ++ [error_toast (JsError "Failed to upload file")])
         (ChatWindow.channels s))
      [].
Proof.
  intros Hfault. unfold ChatWindow.sendMessage.
  rewrite andb_false_r. cbn. rewrite Hfault. reflexivity.
Qed.

(** C7: when the upload of the attachment fails, the send ends in the
    error toast "Failed to upload file", the store is left as it was (no
    Message row is written) and so is the conversation log, together with
    the text and the file of the form. *)
Theorem upload_failure_is_atomic
  (u : User.t) (fr : Profile.t) (text : string) (f : File.t)
  (purl : option string) (clock : string) (e : Env) (envs : list Env)
  (st : Store.t) (s : ChatWindow.State) (err : Err) :
  fault e = Some err ->
  let r := run (User.id u)
             (ChatWindow.sendMessage (Some u) (Some fr) text (Some f) purl clock)
             (e :: envs) st s in
  store_after r = st
  /\ ChatWindow.messages (state_after r) = ChatWindow.messages s
  /\ ChatWindow.toasts (state_after r)
     = ChatWindow.toasts s ++ [error_toast (JsError "Failed to upload file")]
  /\ ChatWindow.newMessage (state_after r) = ChatWindow.newMessage s
  /\ ChatWindow.selectedFile (state_after r) = ChatWindow.selectedFile s
  /\ ChatWindow.loading (state_after r) = false
  /\ completion r = Returned tt.
Proof.
  intros Hfault. cbn zeta.
  rewrite (sendMessage_upload_failed_run u fr text f purl clock e envs st s err
             Hfault).
  repeat split.
Qed.

(** ** [handleFriendRequest] and [sendFriendRequest] run in one piece *)

Lemma find_none_existsb {A} (p : A -> bool) (l : list A) :
  find p l = None <-> existsb p l = false.
Proof.
  induction l as [|x l IH]; cbn; [tauto|].
  destruct (p x); cbn; [split; discriminate|exact IH].
Qed.

(** C8: a response to a friendship id that resolves to no row of the store
    ends in the error toast, never in the success toast: the store is left
    as it was, nothing is refetched, and when the call itself went through
    the error shown is the store's [NotFound]. *)
Theorem respond_unresolved_id_not_found
  (me : string) (user : option User.t) (pend : list Friendship.t)
  (id : string) (accept : bool) (e : Env) (envs : list Env)
  (st : Store.t) (s : Notifications.State) :
  find (fun f => Friendship.id f =? id) (Store.friendships st) = None ->
  let r := run me (Notifications.handleFriendRequest user pend id accept)
             (e :: envs) st s in
  store_after r = st
  /\ suspended r = []
  /\ exists err,
       state_after r = Notifications.toast (error_toast err) s
       /\ (fault e = None -> err = RemoteError NotFound "friendship not found").
Proof.
  intros Hnone. unfold Notifications.handleFriendRequest. cbn.
  destruct (fault e) as [err|] eqn:Hf; cbn.
  - repeat split. exists err. split; [reflexivity|discriminate].
  - rewrite Hnone. cbn. repeat split.
    exists (RemoteError NotFound "friendship not found"). split; reflexivity.
Qed.

Lemma respond_unresolved_id_not_found_witness :
  store_after
    (run "me" (Notifications.handleFriendRequest
                 (Some (User.mk "me" None)) [] "f9" true)
       [quiet] (Store.mk [] [] []) (Notifications.mkState [] [] false []))
  = Store.mk [] [] [].
Proof.
  apply (respond_unresolved_id_not_found "me" (Some (User.mk "me" None)) []
           "f9" true quiet [] (Store.mk [] [] [])
           (Notifications.mkState [] [] false []) eq_refl).
Defined.

Lemma between_pair_row (a b : string) (f : Friendship.t) :
  between a b f = true <-> pair_row a b f.
Proof.
  unfold between, pair_row.
  rewrite orb_true_iff, !andb_true_iff, !String.eqb_eq. tauto.
Qed.

Lemma existsb_between (a b : string) (l : list Friendship.t) :
  existsb (between a b) l = true <-> exists f, In f l /\ pair_row a b f.
Proof.
  rewrite existsb_exists. split; intros [f [Hin H]]; exists f;
    (split; [exact Hin|now apply between_pair_row]).
Qed.

Lemma existsb_between_false (a b : string) (l : list Friendship.t) :
  (forall f, In f l -> ~ pair_row a b f) -> existsb (between a b) l = false.
Proof.
  intros H. destruct (existsb (between a b) l) eqn:E; [|reflexivity].
  apply existsb_between in E. destruct E as [f [Hin Hp]]. now destruct (H f Hin).
Qed.

Lemma filter_nil_existsb {A} (p : A -> bool) (l : list A) :
  filter p l = [] -> existsb p l = false.
Proof.
  induction l as [|x l IH]; cbn; [reflexivity|].
  destruct (p x); [discriminate|exact IH].
Qed.

(** C5: when a Friendship row exists between caller and target, in either
    orientation and whatever its status, [sendFriendRequest] inserts
    nothing and ends in a destructive toast, "Request Already Exists" for
    the row found or the store's [Conflict]; when none exists and the store
    accepts the two writes, it inserts one pending Friendship with the
    caller as requester and one [friend_request] Notification owned by the
    target, and reports "Request Sent". *)
Theorem sendFriendRequest_conflict_or_insert
  (u : User.t) (t name : string) (e1 e2 e3 : Env) (envs : list Env)
  (st : Store.t) (s : UserSearch.State) :
  let r := run (User.id u) (UserSearch.sendFriendRequest u t name)
             (e1 :: e2 :: e3 :: envs) st s in
  ((exists f, In f (Store.friendships st) /\ pair_row (User.id u) t f) ->
   store_after r = st
   /\ exists tst,
        state_after r = UserSearch.mkState None (UserSearch.toasts s ++ [tst])
        /\ variant tst = destructive
        /\ (fault e1 = None -> fault e2 = None ->
            (exists f, In f (Store.friendships st) /\ pair_row (User.id u) t f
                       /\ tst = UserSearch.request_exists f)
            \/ tst = error_toast (RemoteError Conflict "duplicate friendship")))
  /\ ((forall f, In f (Store.friendships st) -> ~ pair_row (User.id u) t f) ->
      fault e2 = None -> fault e3 = None ->
      store_after r
      = Store.mk
          (Store.friendships st
           ++ [Friendship.mk (new_id e2) (User.id u) t pending (now e2)])
          (Store.messages st)
          (Store.notifications st
           ++ [Notification.mk (new_id e3) t NotificationType.friend_request
                 "You have a new friend request" (Some (User.id u)) false (now e3)])
      /\ state_after r
         = UserSearch.mkState None
             (UserSearch.toasts s ++ [UserSearch.request_sent name])).
Proof.
  cbn zeta. unfold UserSearch.sendFriendRequest. split.
  - intros Hex. pose proof Hex as Hex'. apply existsb_between in Hex'. cbn.
    assert (Hins : forall tl,
      let r := run (User.id u)
        (finally (try_catch
           (r' <- await (InsertFriendship
                           (FriendshipInsert.mk (User.id u) t pending)) ;;
            match error r' with
            | Some e => Throw e
            | None =>
                _ <- await (InsertNotification
                              (NotificationInsert.mk t
                                 NotificationType.friend_request
                                 "You have a new friend request"
                                 (Some (User.id u)))) ;;
                update (UserSearch.toast (UserSearch.request_sent name))
            end)
           (fun e => update (UserSearch.toast (error_toast e))))
           (update (UserSearch.setSendingRequest None)))
        (e2 :: tl) st (UserSearch.setSendingRequest (Some t) s) in
      store_after r = st
      /\ exists err,
           state_after r
           = UserSearch.mkState None (UserSearch.toasts s ++ [error_toast err])
           /\ (fault e2 = None ->
               err = RemoteError Conflict "duplicate friendship")).
    { intros tl. cbn. destruct (fault e2) as [err|]; cbn.
      - split; [reflexivity|]. exists err. split; [reflexivity|discriminate].
      - rewrite Hex'. cbn. split; [reflexivity|].
        eexists. split; reflexivity. }
    destruct (fault e1) as [err1|] eqn:Hf1; cbn.
    + destruct (Hins (e3 :: envs)) as [H1 [err [H2 H3]]].
      split; [exact H1|]. exists (error_toast err).
      split; [exact H2|]. split; [reflexivity|]. discriminate.
    + destruct (filter (between (User.id u) t) (Store.friendships st))
        as [|f [|f' l]] eqn:Hfil.
      * apply filter_nil_existsb in Hfil. congruence.
      * cbn. split; [reflexivity|]. exists (UserSearch.request_exists f).
        split; [reflexivity|]. split; [reflexivity|]. intros _ _. left.
        exists f. assert (Hin : In f (filter (between (User.id u) t)
                                        (Store.friendships st)))
          by (rewrite Hfil; now left).
        apply filter_In in Hin. destruct Hin as [Hin Hb].
        apply between_pair_row in Hb. auto.
      * cbn. destruct (Hins (e3 :: envs)) as [H1 [err [H2 H3]]].
        split; [exact H1|]. exists (error_toast err).
        split; [exact H2|]. split; [reflexivity|]. intros _ Hf2. right.
        now rewrite (H3 Hf2).
  - intros Hno Hf2 Hf3. apply existsb_between_false in Hno. cbn.
    assert (Hfil : filter (between (User.id u) t) (Store.friendships st) = []).
    { destruct (filter (between (User.id u) t) (Store.friendships st))
        as [|f l] eqn:E; [reflexivity|].
      assert (Hin : In f (filter (between (User.id u) t) (Store.friendships st)))
        by (rewrite E; now left).
      apply filter_In in Hin. destruct Hin as [Hin Hb].
      assert (existsb (between (User.id u) t) (Store.friendships st) = true)
        by (apply existsb_exists; eauto).
      congruence. }
    destruct (fault e1) as [err1|]; cbn;
      [|rewrite Hfil; cbn]; rewrite Hf2; cbn; rewrite Hno; cbn;
      rewrite Hf3; cbn; split; reflexivity.
Qed.

Lemma sendFriendRequest_conflict_or_insert_witness :
  store_after
    (run "u" (UserSearch.sendFriendRequest (User.mk "u" None) "b" "bob")
       [quiet; quiet; quiet]
       (Store.mk [Friendship.mk "f1" "b" "u" rejected "2026-01-01"] [] [])
       (UserSearch.mkState None []))
  = Store.mk [Friendship.mk "f1" "b" "u" rejected "2026-01-01"] [] [].
Proof.
  apply (proj1 (sendFriendRequest_conflict_or_insert (User.mk "u" None) "b" "bob"
                  quiet quiet quiet []
                  (Store.mk [Friendship.mk "f1" "b" "u" rejected "2026-01-01"] [] [])
                  (UserSearch.mkState None []))).
  exists (Friendship.mk "f1" "b" "u" rejected "2026-01-01").
  split; [now left|]. right. split; reflexivity.
Defined.

(** The follow-up Notification insert fails, and "Request Sent" is shown
    all the same: the Friendship is written, the Notification is not. *)
Lemma notification_failure_reported_as_success :
  let envs := [quiet; mkEnv None "f1" "2026-01-01";
               mkEnv (Some (RemoteError TransportError "network down")) "n1"
                 "2026-01-01"] in
  let r := run "u" (UserSearch.sendFriendRequest (User.mk "u" None) "b" "bob")
             envs (Store.mk [] [] []) (UserSearch.mkState None []) in
  error (snd (serve "u" (nth 2 envs quiet) (store_after r)
                (InsertNotification
                   (NotificationInsert.mk "b" NotificationType.friend_request
                      "You have a new friend request" (Some "u")))))
  = Some (RemoteError TransportError "network down")
  /\ Store.notifications (store_after r) = []
  /\ Store.friendships (store_after r)
     = [Friendship.mk "f1" "u" "b" pending "2026-01-01"]
  /\ UserSearch.toasts (state_after r) = [UserSearch.request_sent "bob"].
Proof. cbn. repeat split. Qed.

(** [sendFriendRequest] in one piece, read off the three replies. *)
Lemma sendFriendRequest_run
  (u : User.t) (t name : string) (e1 e2 e3 : Env) (envs : list Env)
  (st : Store.t) (s : UserSearch.State) :
  let uid := User.id u in
  let insert := InsertFriendship (FriendshipInsert.mk uid t pending) in
  let notify :=
    InsertNotification
      (NotificationInsert.mk t NotificationType.friend_request
         "You have a new friend request" (Some uid)) in
  let ends st' tst :=
    mkRun (Returned tt) st'
      (UserSearch.mkState None (UserSearch.toasts s ++ [tst])) [] in
  run uid (UserSearch.sendFriendRequest u t name) (e1 :: e2 :: e3 :: envs) st s
  = match data (snd (serve uid e1 st (SelectFriendshipBetween uid t))) with
    | Some existing => ends st (UserSearch.request_exists existing)
    | None =>
        match error (snd (serve uid e2 st insert)) with
        | Some err => ends st (error_toast err)
        | None =>
            ends (fst (serve uid e3 (fst (serve uid e2 st insert)) notify))
              (UserSearch.request_sent name)
        end
    end.
Proof.
  cbn zeta. unfold UserSearch.sendFriendRequest. cbn.
  assert (Hins :
    forall st0 : Store.t, st0 = st ->
    run (User.id u)
      (finally (try_catch
         (r' <- await (InsertFriendship
                         (FriendshipInsert.mk (User.id u) t pending)) ;;
          match error r' with
          | Some e => Throw e
          | None =>
              _ <- await (InsertNotification
                            (NotificationInsert.mk t
                               NotificationType.friend_request
                               "You have a new friend request"
                               (Some (User.id u)))) ;;
              update (UserSearch.toast (UserSearch.request_sent name))
          end)
         (fun e => update (UserSearch.toast (error_toast e))))
         (update (UserSearch.setSendingRequest None)))
      (e2 :: e3 :: envs) st0 (UserSearch.setSendingRequest (Some t) s)
    = match error (snd (serve (User.id u) e2 st
                          (InsertFriendship
                             (FriendshipInsert.mk (User.id u) t pending)))) with
      | Some err =>
          mkRun (Returned tt) st
            (UserSearch.mkState None (UserSearch.toasts s ++ [error_toast err])) []
      | None =>
          mkRun (Returned tt)
            (fst (serve (User.id u) e3
                    (fst (serve (User.id u) e2 st
                            (InsertFriendship
                               (FriendshipInsert.mk (User.id u) t pending))))
                    (InsertNotification
                       (NotificationInsert.mk t NotificationType.friend_request
                          "You have a new friend request" (Some (User.id u))))))
            (UserSearch.mkState None
               (UserSearch.toasts s ++ [UserSearch.request_sent name])) []
      end).
  { intros st0 ->. cbn. destruct (fault e2); cbn; [reflexivity|].
    destruct (existsb _ (Store.friendships st)); cbn; [reflexivity|].
    destruct (fault e3); reflexivity. }
  destruct (fault e1); cbn.
  - now apply Hins.
  - destruct (filter (between (User.id u) t) (Store.friendships st))
      as [|f [|f' l]]; cbn; [now apply Hins|reflexivity|now apply Hins].
Qed.

(** [sendMessage] without attachment in one piece. *)
Lemma sendMessage_text_run
  (u : User.t) (fr : Profile.t) (text : string) (purl : option string)
  (clock : string) (e2 e3 : Env) (envs : list Env) (st : Store.t)
  (s : ChatWindow.State) :
  truthy (trim text) = true ->
  let insert :=
    InsertMessage (MessageInsert.mk (User.id u) (Profile.id fr)
                     (Some (trim text)) None None None) in
  run (User.id u)
    (ChatWindow.sendMessage (Some u) (Some fr) text None purl clock)
    (e2 :: e3 :: envs) st s
  = match fault e2 with
    | Some err =>
        mkRun (Returned tt) st
          (ChatWindow.mkState (ChatWindow.messages s) (ChatWindow.newMessage s)
             false (ChatWindow.selectedFile s) (ChatWindow.previewUrl s)
             (ChatWindow.toasts s ++ [error_toast err]) (ChatWindow.channels s))
          []
    | None =>
        mkRun (Returned tt)
          (fst (serve (User.id u) e3 (fst (serve (User.id u) e2 st insert))
                  (InsertNotification
                     (NotificationInsert.mk (Profile.id fr)
                        NotificationType.message
                        ("New message from " ++
                         match User.email u with
                         | Some em => split_first "@" em
                         | None => "undefined"
                         end)%string
                        (Some (User.id u))))))
          (ChatWindow.mkState
             (ChatWindow.messages s ++ [new_message e2
                (MessageInsert.mk (User.id u) (Profile.id fr)
                   (Some (trim text)) None None None)])
             "" false None
             match purl with Some _ => None | None => ChatWindow.previewUrl s end
             (ChatWindow.toasts s) (ChatWindow.channels s))
          []
    end.
Proof.
  intros Ht. cbn zeta. unfold ChatWindow.sendMessage. rewrite Ht. cbn.
  destruct (fault e2); cbn; [reflexivity|].
  destruct (fault e3), purl; reflexivity.
Qed.

(** [sendMessage] with an attachment whose upload went through. *)
Lemma sendMessage_media_run
  (u : User.t) (fr : Profile.t) (text : string) (f : File.t)
  (purl : option string) (clock : string) (e0 e2 e3 : Env) (envs : list Env)
  (st : Store.t) (s : ChatWindow.State) :
  fault e0 = None ->
  let row :=
    MessageInsert.mk (User.id u) (Profile.id fr)
      (if truthy (trim text) then Some (trim text) else None)
      (Some (ChatWindow.getPublicUrl
               (User.id u ++ "/" ++ clock ++ "." ++ split_last "." (File.name f))%string))
      (Some (ChatWindow.getMediaType f)) (Some (File.name f)) in
  run (User.id u)
    (ChatWindow.sendMessage (Some u) (Some fr) text (Some f) purl clock)
    (e0 :: e2 :: e3 :: envs) st s
  = match fault e2 with
    | Some err =>
        mkRun (Returned tt) st
          (ChatWindow.mkState (ChatWindow.messages s) (ChatWindow.newMessage s)
             false (ChatWindow.selectedFile s) (ChatWindow.previewUrl s)
             (ChatWindow.toasts s ++ [error_toast err]) (ChatWindow.channels s))
          []
    | None =>
        mkRun (Returned tt)
          (fst (serve (User.id u) e3
                  (fst (serve (User.id u) e2 st (InsertMessage row)))
                  (InsertNotification
                     (NotificationInsert.mk (Profile.id fr)
                        NotificationType.message
                        ("New message from " ++
                         match User.email u with
                         | Some em => split_first "@" em
                         | None => "undefined"
                         end)%string
                        (Some (User.id u))))))
          (ChatWindow.mkState
             (ChatWindow.messages s ++ [new_message e2 row])
             "" false None
             match purl with Some _ => None | None => ChatWindow.previewUrl s end
             (ChatWindow.toasts s) (ChatWindow.channels s))
          []
    end.
Proof.
  intros H0. cbn zeta. unfold ChatWindow.sendMessage.
  rewrite andb_false_r. cbn. rewrite H0. cbn.
  destruct (fault e2); cbn; [reflexivity|].
  destruct (fault e3), purl; reflexivity.
Qed.

(** What [sendMessage] puts into the bucket: the attachment, under the
    path of [uploadFile], when the upload goes through, whatever becomes of
    the calls after it; and nothing otherwise. *)
Lemma sendMessage_uploads
  (u : User.t) (fr : Profile.t) (text : string) (file : option File.t)
  (purl : option string) (clock : string) (envs : list Env) (st : Store.t) :
  uploads (User.id u)
    (ChatWindow.sendMessage (Some u) (Some fr) text file purl clock) envs st
  = match file with
    | Some f =>
        stored (hd quiet envs)
          (StorageUpload
             (User.id u ++ "/" ++ clock ++ "." ++ split_last "." (File.name f))%string
             f)
    | None => []
    end.
Proof.
  unfold ChatWindow.sendMessage. destruct file as [f|].
  - rewrite andb_false_r. cbn.
    destruct (fault (hd quiet envs)); cbn; [reflexivity|].
    destruct (fault (hd quiet (tl envs))); cbn; [reflexivity|].
    destruct (fault (hd quiet (tl (tl envs)))), purl; reflexivity.
  - rewrite andb_true_r.
    destruct (negb (truthy (trim text))); cbn; [reflexivity|].
    destruct (fault (hd quiet envs)); cbn; [reflexivity|].
    destruct (fault (hd quiet (tl envs))), purl; reflexivity.
Qed.

(** C9, as the code has it: when the main write of an action fails (the
    Friendship insert of [sendFriendRequest]; the upload or the Message
    insert of [sendMessage]) the action ends in the error toast of that
    failure, reports no success and writes no row of any table.  A failed
    upload stores nothing; but when the Message insert fails after the
    upload went through, the attachment has been stored under its path and
    stays there.  The reply of the follow-up Notification insert is not
    looked at, so the action ends the same way whether that insert fails or
    not. *)
Theorem main_write_failure_is_reported
  (u : User.t) (e1 e2 e3 e3' : Env) (envs envs' : list Env) (st : Store.t) :
  (forall (t name : string) (s : UserSearch.State) (err : Err),
      data (snd (serve (User.id u) e1 st
                   (SelectFriendshipBetween (User.id u) t))) = None ->
      error (snd (serve (User.id u) e2 st
                    (InsertFriendship
                       (FriendshipInsert.mk (User.id u) t pending)))) = Some err ->
      let r := run (User.id u) (UserSearch.sendFriendRequest u t name)
                 (e1 :: e2 :: e3 :: envs) st s in
      store_after r = st
      /\ state_after r
         = UserSearch.mkState None (UserSearch.toasts s ++ [error_toast err]))
  /\ (forall (fr : Profile.t) (text : string) (purl : option string)
        (clock : string) (s : ChatWindow.State) (err : Err),
      truthy (trim text) = true ->
      fault e2 = Some err ->
      let r := run (User.id u)
                 (ChatWindow.sendMessage (Some u) (Some fr) text None purl clock)
                 (e2 :: e3 :: envs) st s in
      store_after r = st
      /\ ChatWindow.messages (state_after r) = ChatWindow.messages s
      /\ ChatWindow.newMessage (state_after r) = ChatWindow.newMessage s
      /\ ChatWindow.toasts (state_after r)
         = ChatWindow.toasts s ++ [error_toast err]
      /\ uploads (User.id u)
           (ChatWindow.sendMessage (Some u) (Some fr) text None purl clock)
           (e2 :: e3 :: envs) st
         = [])
  /\ (forall (fr : Profile.t) (text : string) (f : File.t)
        (purl : option string) (clock : string) (s : ChatWindow.State)
        (err : Err),
      fault e1 = None ->
      fault e2 = Some err ->
      let r := run (User.id u)
                 (ChatWindow.sendMessage (Some u) (Some fr) text (Some f) purl
                    clock)
                 (e1 :: e2 :: e3 :: envs) st s in
      store_after r = st
      /\ ChatWindow.messages (state_after r) = ChatWindow.messages s
      /\ ChatWindow.newMessage (state_after r) = ChatWindow.newMessage s
      /\ ChatWindow.selectedFile (state_after r) = ChatWindow.selectedFile s
      /\ ChatWindow.toasts (state_after r)
         = ChatWindow.toasts s ++ [error_toast err]
      /\ uploads (User.id u)
           (ChatWindow.sendMessage (Some u) (Some fr) text (Some f) purl clock)
           (e1 :: e2 :: e3 :: envs) st
         = [((User.id u ++ "/" ++ clock ++ "."
              ++ split_last "." (File.name f))%string, f)])
  /\ (forall (fr : Profile.t) (text : string) (f : File.t)
        (purl : option string) (clock : string) (s : ChatWindow.State)
        (err : Err),
      fault e1 = Some err ->
      let r := run (User.id u)
                 (ChatWindow.sendMessage (Some u) (Some fr) text (Some f) purl
                    clock)
                 (e1 :: envs) st s in
      store_after r = st
      /\ ChatWindow.messages (state_after r) = ChatWindow.messages s
      /\ ChatWindow.newMessage (state_after r) = ChatWindow.newMessage s
      /\ ChatWindow.selectedFile (state_after r) = ChatWindow.selectedFile s
      /\ ChatWindow.toasts (state_after r)
         = ChatWindow.toasts s
           ++ [error_toast (JsError "Failed to upload file")]
      /\ uploads (User.id u)
           (ChatWindow.sendMessage (Some u) (Some fr) text (Some f) purl clock)
           (e1 :: envs) st
         = [])
  /\ (forall (t name : string) (s : UserSearch.State),
      state_after (run (User.id u) (UserSearch.sendFriendRequest u t name)
                     (e1 :: e2 :: e3 :: envs) st s)
      = state_after (run (User.id u) (UserSearch.sendFriendRequest u t name)
                       (e1 :: e2 :: e3' :: envs') st s))
  /\ (forall (fr : Profile.t) (text : string) (purl : option string)
        (clock : string) (s : ChatWindow.State),
      truthy (trim text) = true ->
      state_after (run (User.id u)
                     (ChatWindow.sendMessage (Some u) (Some fr) text None purl clock)
                     (e2 :: e3 :: envs) st s)
      = state_after (run (User.id u)
                       (ChatWindow.sendMessage (Some u) (Some fr) text None purl clock)
                       (e2 :: e3' :: envs') st s))
  /\ (forall (fr : Profile.t) (text : string) (f : File.t)
        (purl : option string) (clock : string) (s : ChatWindow.State),
      fault e1 = None ->
      state_after (run (User.id u)
                     (ChatWindow.sendMessage (Some u) (Some fr) text (Some f)
                        purl clock)
                     (e1 :: e2 :: e3 :: envs) st s)
      = state_after (run (User.id u)
                       (ChatWindow.sendMessage (Some u) (Some fr) text (Some f)
                          purl clock)
                       (e1 :: e2 :: e3' :: envs') st s)).
Proof.
  split; [|split; [|split; [|split; [|split; [|split]]]]].
  - intros t name s err Hlook Hins. cbn zeta.
    rewrite sendFriendRequest_run. cbn zeta. rewrite Hlook, Hins. now split.
  - intros fr text purl clock s err Ht Hf. cbn zeta.
    rewrite (sendMessage_text_run u fr text purl clock e2 e3 envs st s Ht).
    rewrite sendMessage_uploads, Hf. cbn. repeat split.
  - intros fr text f purl clock s err H1 Hf. cbn zeta.
    rewrite (sendMessage_media_run u fr text f purl clock e1 e2 e3 envs st s H1).
    rewrite sendMessage_uploads, Hf. cbn [hd stored]. rewrite H1.
    cbn. repeat split.
  - intros fr text f purl clock s err Hf. cbn zeta.
    rewrite (sendMessage_upload_failed_run u fr text f purl clock e1 envs st s
               err Hf).
    rewrite sendMessage_uploads. cbn [hd stored]. rewrite Hf.
    repeat split.
  - intros t name s. rewrite !sendFriendRequest_run. cbn zeta.
    destruct (data _); [reflexivity|]. destruct (error _); reflexivity.
  - intros fr text purl clock s Ht.
    rewrite !(sendMessage_text_run u fr text purl clock e2 _ _ st s Ht).
    destruct (fault e2); reflexivity.
  - intros fr text f purl clock s H1.
    rewrite !(sendMessage_media_run u fr text f purl clock e1 e2 _ _ st s H1).
    destruct (fault e2); reflexivity.
Qed.

Lemma main_write_failure_is_reported_witness :
  let u := User.mk "u" None in
  let fr := Profile.mk "a" None None None "t" "t" in
  let f := File.mk "cat.png" "image/png" 2048%N in
  let envs := [quiet; mkEnv (Some (RemoteError TransportError "network down")) "" "";
               quiet] in
  let s := ChatWindow.mkState [] "" false (Some f) None [] [] in
  let p := ChatWindow.sendMessage (Some u) (Some fr) "" (Some f) None "1" in
  let r := run "u" p envs (Store.mk [] [] []) s in
  store_after r = Store.mk [] [] []
  /\ ChatWindow.toasts (state_after r)
     = [error_toast (RemoteError TransportError "network down")]
  /\ uploads "u" p envs (Store.mk [] [] []) = [("u/1.png", f)].
Proof.
  destruct (proj1 (proj2 (proj2 (main_write_failure_is_reported (User.mk "u" None)
                                   quiet
                                   (mkEnv (Some (RemoteError TransportError
                                                   "network down")) "" "")
                                   quiet quiet [] [] (Store.mk [] [] []))))
              (Profile.mk "a" None None None "t" "t") ""
              (File.mk "cat.png" "image/png" 2048%N) None "1"
              (ChatWindow.mkState [] "" false
                 (Some (File.mk "cat.png" "image/png" 2048%N)) None [] [])
              (RemoteError TransportError "network down") eq_refl eq_refl)
    as (Hstore & _ & _ & _ & Htoast & Hblob).
  split; [exact Hstore|]. split; [exact Htoast|exact Hblob].
Defined.

Lemma upload_failure_is_atomic_witness :
  store_after
    (run "u"
       (ChatWindow.sendMessage (Some (User.mk "u" None))
          (Some (Profile.mk "a" None None None "t" "t")) ""
          (Some (File.mk "cat.png" "image/png" 2048%N)) None "1")
       [mkEnv (Some (RemoteError UploadError "bucket unavailable")) "" ""]
       (Store.mk [] [] [])
       (ChatWindow.mkState [] "" false
          (Some (File.mk "cat.png" "image/png" 2048%N)) None [] []))
  = Store.mk [] [] [].
Proof.
  apply (upload_failure_is_atomic (User.mk "u" None)
           (Profile.mk "a" None None None "t" "t") ""
           (File.mk "cat.png" "image/png" 2048%N) None "1"
           (mkEnv (Some (RemoteError UploadError "bucket unavailable")) "" "")
           [] (Store.mk [] [] [])
           (ChatWindow.mkState [] "" false
              (Some (File.mk "cat.png" "image/png" 2048%N)) None [] [])
           (RemoteError UploadError "bucket unavailable") eq_refl).
Defined.

(** ** The unread badge *)

Lemma insert_by_count {A} (le : A -> A -> bool) (p : A -> bool) (x : A) (l : list A) :
  length (filter p (insert_by le x l)) = length (filter p (x :: l)).
Proof.
  induction l as [|y l IH]; [reflexivity|].
  cbn [insert_by]. destruct (le x y); [reflexivity|].
  cbn [filter] in *. destruct (p y), (p x); cbn [length] in *; lia.
Qed.

Lemma order_by_count {A} (le : A -> A -> bool) (p : A -> bool) (l : list A) :
  length (filter p (order_by le l)) = length (filter p l).
Proof.
  induction l as [|x l IH]; [reflexivity|].
  cbn [order_by]. rewrite insert_by_count. cbn [filter].
  destruct (p x); cbn [length]; lia.
Qed.

Lemma order_by_length {A} (le : A -> A -> bool) (l : list A) :
  length (order_by le l) = length l.
Proof.
  pose proof (order_by_count le (fun _ => true) l) as H.
  now rewrite !filter_true in H.
Qed.

Lemma filter_filter {A} (p q : A -> bool) (l : list A) :
  filter p (filter q l) = filter (fun x => q x && p x) l.
Proof.
  induction l as [|x l IH]; [reflexivity|].
  cbn. destruct (q x); cbn; [destruct (p x)|]; now rewrite IH.
Qed.

(** [fetchNotifications] in one piece when both queries go through. *)
Lemma fetchNotifications_run
  (u : User.t) (e1 e2 : Env) (envs : list Env) (st : Store.t)
  (s : Notifications.State) :
  fault e1 = None -> fault e2 = None ->
  run (User.id u) (Notifications.fetchNotifications (Some u))
    (e1 :: e2 :: envs) st s
  = mkRun (Returned tt) st
      (Notifications.mkState (inbox (User.id u) st)
         (filter (pending_incoming (User.id u)) (Store.friendships st))
         false (Notifications.toasts s))
      [].
Proof.
  intros H1 H2. unfold Notifications.fetchNotifications. cbn.
  rewrite H1. cbn. rewrite H2. reflexivity.
Qed.

Lemma filter_firstn_le {A} (p : A -> bool) (n : nat) (l : list A) :
  length (filter p (firstn n l)) <= length (filter p l).
Proof.
  revert n. induction l as [|x l IH]; intros [|n]; cbn; try lia.
  specialize (IH n). destruct (p x); cbn; lia.
Qed.

(** The inbox is cut at 20 rows.  A user with 2 unread Notifications, 20
    newer read ones and 1 pending incoming Friendship sees the badge 1, not
    3: the two unread rows are not among the 20 newest. *)
Lemma badge_misses_unread_beyond_limit :
  let read_rows :=
    map (fun d => Notification.mk ("r" ++ d)%string "u" NotificationType.message
                    "New message from b" (Some "b") true ("2026-02-" ++ d)%string)
      ["01"; "02"; "03"; "04"; "05"; "06"; "07"; "08"; "09"; "10";
       "11"; "12"; "13"; "14"; "15"; "16"; "17"; "18"; "19"; "20"] in
  let st :=
    Store.mk [Friendship.mk "f1" "a" "u" pending "2026-01-03"] []
      (Notification.mk "n1" "u" NotificationType.friend_request
         "You have a new friend request" (Some "a") false "2026-01-03"
       :: Notification.mk "n2" "u" NotificationType.message
            "New message from b" (Some "b") false "2026-01-04"
       :: read_rows) in
  let s' := state_after
              (run "u" (Notifications.fetchNotifications (Some (User.mk "u" None)))
                 [quiet; quiet] st (Notifications.mkState [] [] true [])) in
  length (filter (fun n => owned_by "u" n && unread n) (Store.notifications st)) = 2
  /\ length (filter (pending_incoming "u") (Store.friendships st)) = 1
  /\ Notifications.unreadCount s' = 1
  /\ Notifications.unreadCount s' <> 3.
Proof. vm_compute. repeat split. discriminate. Qed.

(** C6: in every state of the inbox the badge is the number of unread
    Notification rows it holds plus the number of pending requests it
    holds.  After [fetchNotifications] has refreshed the inbox of user [u]
    from the store these are the unread rows among the 20 newest
    Notification rows owned by [u] and the pending Friendship rows addressed
    to [u]: the badge never exceeds the number of unread rows of [u] plus
    the pending requests addressed to [u], and an unread row older than the
    20 newest is not counted.  While [u] owns at most 20 Notification rows
    the badge counts all the unread rows of [u], and so with 2 unread
    Notifications and 1 pending incoming Friendship it shows 3. *)
Theorem unread_badge_count
  (u : User.t) (e1 e2 : Env) (envs : list Env) (st : Store.t)
  (s : Notifications.State) :
  fault e1 = None -> fault e2 = None ->
  let s' := state_after
              (run (User.id u) (Notifications.fetchNotifications (Some u))
                 (e1 :: e2 :: envs) st s) in
  let unread_rows :=
    filter (fun n => owned_by (User.id u) n && unread n) (Store.notifications st) in
  let pending_rows :=
    filter (pending_incoming (User.id u)) (Store.friendships st) in
  Notifications.unreadCount s
  = length (filter unread (Notifications.notifications s))
    + length (Notifications.pendingRequests s)
  /\ Notifications.notifications s' = inbox (User.id u) st
  /\ Notifications.pendingRequests s' = pending_rows
  /\ Notifications.unreadCount s'
     = length (filter unread (inbox (User.id u) st)) + length pending_rows
  /\ Notifications.unreadCount s' <= length unread_rows + length pending_rows
  /\ (length (filter (owned_by (User.id u)) (Store.notifications st)) <= 20 ->
      Notifications.unreadCount s' = length unread_rows + length pending_rows)
  /\ (length (filter (owned_by (User.id u)) (Store.notifications st)) <= 20 ->
      length unread_rows = 2 -> length pending_rows = 1 ->
      Notifications.unreadCount s' = 3).
Proof.
  intros H1 H2. cbn zeta. rewrite (fetchNotifications_run u e1 e2 envs st s H1 H2).
  cbn [state_after]. unfold Notifications.unreadCount.
  cbn [Notifications.notifications Notifications.pendingRequests].
  assert (Hall :
    length (filter (owned_by (User.id u)) (Store.notifications st)) <= 20 ->
    length (filter (fun n => negb (Notification.read n)) (inbox (User.id u) st))
    = length (filter (fun n => owned_by (User.id u) n && unread n)
                (Store.notifications st))).
  { intros Hle. unfold inbox. rewrite firstn_all2.
    - change (fun n => negb (Notification.read n)) with unread.
      now rewrite order_by_count, filter_filter.
    - now rewrite order_by_length. }
  repeat split.
  - apply Nat.add_le_mono_r. unfold inbox.
    etransitivity; [apply filter_firstn_le|].
    change (fun n => negb (Notification.read n)) with unread.
    now rewrite order_by_count, filter_filter.
  - intros Hle. now rewrite (Hall Hle).
  - intros Hle Hu Hp. now rewrite (Hall Hle), Hu, Hp.
Qed.

Lemma unread_badge_count_witness :
  Notifications.unreadCount
    (state_after
       (run "u" (Notifications.fetchNotifications (Some (User.mk "u" None)))
          [quiet; quiet]
          (Store.mk
             [Friendship.mk "f1" "a" "u" pending "2026-01-03";
              Friendship.mk "f2" "b" "u" accepted "2026-01-01";
              Friendship.mk "f3" "u" "c" pending "2026-01-02"]
             []
             [Notification.mk "n1" "u" NotificationType.friend_request
                "You have a new friend request" (Some "a") false "2026-01-03";
              Notification.mk "n2" "u" NotificationType.message
                "New message from b" (Some "b") false "2026-01-04";
              Notification.mk "n3" "u" NotificationType.message
                "New message from b" (Some "b") true "2026-01-02";
              Notification.mk "n4" "c" NotificationType.message
                "New message from u" (Some "u") false "2026-01-05"])
          (Notifications.mkState [] [] true [])))
  = 3.
Proof.
  apply (unread_badge_count (User.mk "u" None) quiet quiet []
           (Store.mk
             [Friendship.mk "f1" "a" "u" pending "2026-01-03";
              Friendship.mk "f2" "b" "u" accepted "2026-01-01";
              Friendship.mk "f3" "u" "c" pending "2026-01-02"]
             []
             [Notification.mk "n1" "u" NotificationType.friend_request
                "You have a new friend request" (Some "a") false "2026-01-03";
              Notification.mk "n2" "u" NotificationType.message
                "New message from b" (Some "b") false "2026-01-04";
              Notification.mk "n3" "u" NotificationType.message
                "New message from b" (Some "b") true "2026-01-02";
              Notification.mk "n4" "c" NotificationType.message
                "New message from u" (Some "u") false "2026-01-05"])
           (Notifications.mkState [] [] true []) eq_refl eq_refl).
  - cbn. repeat constructor.
  - reflexivity.
  - reflexivity.
Defined.

(** ** The feed callback of [ChatWindow] *)

Lemma on_insert_idempotent (x : Message.t) (l : list Message.t) :
  ChatWindow.on_insert x (ChatWindow.on_insert x l) = ChatWindow.on_insert x l.
Proof.
  unfold ChatWindow.on_insert.
  destruct (existsb _ l) eqn:E; [now rewrite E|].
  rewrite existsb_app. cbn. now rewrite String.eqb_refl, orb_true_r.
Qed.

Lemma find_id_on_insert (i : string) (x : Message.t) (l : list Message.t) :
  find_id i (ChatWindow.on_insert x l)
  = match find_id i l with
    | Some m => Some m
    | None => if Message.id x =? i then Some x else None
    end.
Proof.
  unfold ChatWindow.on_insert, find_id.
  destruct (existsb _ l) eqn:E.
  - destruct (find _ l) eqn:F; [reflexivity|].
    destruct (Message.id x =? i) eqn:Hx; [|reflexivity].
    apply String.eqb_eq in Hx. subst i.
    apply find_none_existsb in F. congruence.
  - induction l as [|y l IH]; cbn.
    + reflexivity.
    + cbn in E. apply orb_false_iff in E. destruct E as [_ E].
      destruct (Message.id y =? i); [reflexivity|now apply IH].
Qed.

Lemma deliver_spec (ev : ChangeEvent) (s : ChatWindow.State) :
  ChatWindow.deliver ev s
  = if applied (ChatWindow.channels s) ev
    then ChatWindow.setMessages (ChatWindow.on_insert (new ev)) s
    else s.
Proof.
  unfold ChatWindow.deliver, applied.
  generalize (ChatWindow.channels s) as chs. intros chs. revert s.
  induction chs as [|ch chs IH]; intros s; cbn; [reflexivity|].
  rewrite IH. destruct (ChatWindow.matches ch ev); cbn; [|reflexivity].
  destruct (existsb _ chs); [|reflexivity].
  unfold ChatWindow.setMessages. cbn. now rewrite on_insert_idempotent.
Qed.

Lemma deliver_channels (ev : ChangeEvent) (s : ChatWindow.State) :
  ChatWindow.channels (ChatWindow.deliver ev s) = ChatWindow.channels s.
Proof. rewrite deliver_spec. now destruct (applied _ ev). Qed.

Lemma deliver_messages (ev : ChangeEvent) (s : ChatWindow.State) :
  ChatWindow.messages (ChatWindow.deliver ev s)
  = if applied (ChatWindow.channels s) ev
    then ChatWindow.on_insert (new ev) (ChatWindow.messages s)
    else ChatWindow.messages s.
Proof. rewrite deliver_spec. now destruct (applied _ ev). Qed.

Lemma deliver_idempotent (ev : ChangeEvent) (s : ChatWindow.State) :
  ChatWindow.deliver ev (ChatWindow.deliver ev s) = ChatWindow.deliver ev s.
Proof.
  rewrite (deliver_spec ev (ChatWindow.deliver ev s)), deliver_channels.
  rewrite deliver_spec. destruct (applied _ ev); [|reflexivity].
  unfold ChatWindow.setMessages. cbn. now rewrite on_insert_idempotent.
Qed.

Lemma deliver_all_channels (evs : list ChangeEvent) (s : ChatWindow.State) :
  ChatWindow.channels (fold_left (fun s' ev => ChatWindow.deliver ev s') evs s)
  = ChatWindow.channels s.
Proof.
  revert s. induction evs as [|ev evs IH]; intros s; cbn; [reflexivity|].
  now rewrite IH, deliver_channels.
Qed.

(** An insert is pushed and applied, then an update of the same row with
    the read flag set: the log keeps the row of the insert.  The same
    happens when the second change is an insert with the id of the first. *)
Lemma update_event_not_applied :
  let u := User.mk "u" None in
  let a := Profile.mk "a" None None None "t" "t" in
  let v1 := Message.mk "m1" "a" "u" (Some "hi") None None None false "2026-01-01" in
  let v2 := Message.mk "m1" "a" "u" (Some "hi") None None None true "2026-01-01" in
  let s := ChatWindow.mkState [] "" false None None []
             [ChatWindow.channel_for u a] in
  let deliver_all := fold_left (fun s' ev => ChatWindow.deliver ev s') in
  let last_payload evs := option_map new (last (map Some evs) None) in
  find_id "m1" (ChatWindow.messages
                  (deliver_all [mkEvent INSERT v1; mkEvent UPDATE v2] s))
  = Some v1
  /\ find_id "m1" (ChatWindow.messages
                     (deliver_all [mkEvent INSERT v1; mkEvent UPDATE v2] s))
     <> last_payload [mkEvent INSERT v1; mkEvent UPDATE v2]
  /\ find_id "m1" (ChatWindow.messages
                     (deliver_all [mkEvent INSERT v1; mkEvent INSERT v2] s))
     <> last_payload [mkEvent INSERT v1; mkEvent INSERT v2].
Proof. cbn. repeat split; discriminate. Qed.

(** C2, as the code has it: the subscription listens to inserts only.  The
    row the log holds for an id after any sequence of pushed changes is the
    row it held before, or else the payload of the first applied change for
    that id; a change of another type than insert leaves the state as it
    is; and a change delivered a second time changes nothing. *)
Theorem first_insert_wins
  (s : ChatWindow.State) (evs : list ChangeEvent) (i : string) :
  let deliver_all := fold_left (fun s' ev => ChatWindow.deliver ev s') in
  find_id i (ChatWindow.messages (deliver_all evs s))
  = match find_id i (ChatWindow.messages s) with
    | Some m => Some m
    | None =>
        option_map new
          (find (fun ev => applied (ChatWindow.channels s) ev
                           && (Message.id (new ev) =? i)) evs)
    end
  /\ (forall ev, ChatWindow.deliver ev (ChatWindow.deliver ev (deliver_all evs s))
                 = ChatWindow.deliver ev (deliver_all evs s))
  /\ (forall ev,
        Forall (fun ch => ChatWindow.event ch = INSERT) (ChatWindow.channels s) ->
        eventType ev <> INSERT ->
        ChatWindow.deliver ev (deliver_all evs s) = deliver_all evs s).
Proof.
  cbn zeta. split; [|split].
  - revert s. induction evs as [|ev evs IH]; intros s; cbn.
    + now destruct (find_id i (ChatWindow.messages s)).
    + rewrite IH, deliver_channels, deliver_messages.
      destruct (applied (ChatWindow.channels s) ev); cbn; [|reflexivity].
      rewrite find_id_on_insert.
      destruct (find_id i (ChatWindow.messages s)); [reflexivity|].
      now destruct (Message.id (new ev) =? i).
  - intros ev. apply deliver_idempotent.
  - intros ev Hall Hne. rewrite deliver_spec, deliver_all_channels.
    replace (applied (ChatWindow.channels s) ev) with false; [reflexivity|].
    symmetry. unfold applied.
    induction Hall as [|ch chs Hch _ IH]; cbn; [reflexivity|].
    rewrite IH, orb_false_r. unfold ChatWindow.matches. rewrite Hch.
    destruct (eventType ev); cbn; congruence.
Qed.

Lemma first_insert_wins_witness :
  let s := ChatWindow.mkState [] "" false None None []
             [ChatWindow.channel_for (User.mk "u" None)
                (Profile.mk "a" None None None "t" "t")] in
  let ev := mkEvent UPDATE
              (Message.mk "m1" "a" "u" (Some "hi") None None None true "2026-01-01") in
  ChatWindow.deliver ev s = s.
Proof.
  cbn zeta.
  apply (proj2 (proj2 (first_insert_wins
           (ChatWindow.mkState [] "" false None None []
              [ChatWindow.channel_for (User.mk "u" None)
                 (Profile.mk "a" None None None "t" "t")]) [] "m1"))).
  - repeat constructor.
  - discriminate.
Defined.

(** ** The subscription of [ChatWindow] under the event loop *)

Lemma tame_bind {A B} (p : Prog ChatWindow.State A)
  (f : A -> Prog ChatWindow.State B) :
  tame p -> (forall a, tame (f a)) -> tame (bind p f).
Proof.
  revert f. induction p as [A a|A e|A g k IH|A R rq k IH|A c _ k IH];
    intros f Hp Hf; cbn in *.
  - apply Hf.
  - exact I.
  - split; [apply Hp|apply IH; [apply Hp|exact Hf]].
  - intros r. apply IH; [apply Hp|exact Hf].
  - split; [apply Hp|apply IH; [apply Hp|exact Hf]].
Qed.

Lemma tame_try_catch {A} (p : Prog ChatWindow.State A)
  (h : Err -> Prog ChatWindow.State A) :
  tame p -> (forall e, tame (h e)) -> tame (try_catch p h).
Proof.
  revert h. induction p as [A a|A e|A g k IH|A R rq k IH|A c _ k IH];
    intros h Hp Hh; cbn in *.
  - exact I.
  - apply Hh.
  - split; [apply Hp|apply IH; [apply Hp|exact Hh]].
  - intros r. apply IH; [apply Hp|exact Hh].
  - split; [apply Hp|apply IH; [apply Hp|exact Hh]].
Qed.

Lemma tame_finally {A} (p : Prog ChatWindow.State A)
  (fin : Prog ChatWindow.State unit) :
  tame p -> tame fin -> tame (finally p fin).
Proof.
  induction p as [A a|A e|A g k IH|A R rq k IH|A c _ k IH];
    intros Hp Hf; cbn in *.
  - apply tame_bind; [exact Hf|intros; exact I].
  - apply tame_bind; [exact Hf|intros; exact I].
  - split; [apply Hp|apply IH; [apply Hp|exact Hf]].
  - intros r. apply IH; [apply Hp|exact Hf].
  - split; [apply Hp|apply IH; [apply Hp|exact Hf]].
Qed.

Lemma tame_update (f : ChatWindow.State -> ChatWindow.State) :
  (forall s, ChatWindow.channels (f s) = ChatWindow.channels s) -> tame (update f).
Proof. intros H. cbn. auto. Qed.

Lemma tame_await {R} (rq : RemoteCall R) : tame (A:=R) (await rq).
Proof. cbn. auto. Qed.

Lemma tame_fetchMessages (user : option User.t) (friend : option Profile.t) :
  tame (ChatWindow.fetchMessages user friend).
Proof.
  unfold ChatWindow.fetchMessages.
  destruct user as [u|], friend as [fr|]; try exact I.
  apply tame_try_catch; [|intros; exact I].
  apply tame_bind; [apply tame_await|]. intros r.
  destruct (error r); [exact I|].
  apply tame_bind; [now apply tame_update|]. intros _.
  apply tame_bind; [apply tame_await|]. intros; exact I.
Qed.

Lemma tame_sendMessage (user : option User.t) (friend : option Profile.t)
  (text : string) (file : option File.t) (purl : option string) (clock : string) :
  tame (ChatWindow.sendMessage user friend text file purl clock).
Proof.
  unfold ChatWindow.sendMessage.
  destruct user as [u|], friend as [fr|]; try exact I.
  destruct (negb (truthy (trim text)) && _); [exact I|].
  apply tame_bind; [now apply tame_update|]. intros _.
  apply tame_finally; [|now apply tame_update].
  apply tame_try_catch; [|intros; now apply tame_update].
  apply tame_bind.
  - destruct file as [f|]; [|exact I].
    apply tame_bind.
    + unfold ChatWindow.uploadFile. apply tame_bind; [apply tame_await|].
      intros r. destruct (error r); exact I.
    + intros m. destruct (ChatWindow.falsy m); exact I.
  - intros [[mediaUrl mediaType] fileName].
    apply tame_bind; [apply tame_await|]. intros r.
    destruct (error r); [exact I|].
    apply tame_bind.
    + destruct (data r); [now apply tame_update|exact I].
    + intros _. apply tame_bind; [apply tame_await|]. intros _.
      apply tame_bind; [now apply tame_update|]. intros _.
      apply tame_update. intros s. unfold ChatWindow.clearSelectedFile.
      now destruct purl.
Qed.

Lemma advance_tame {A} (p : Prog ChatWindow.State A) (s : ChatWindow.State) :
  tame p ->
  ChatWindow.channels (fst (fst (advance p s))) = ChatWindow.channels s
  /\ tame (snd (fst (advance p s)))
  /\ Forall tame (snd (advance p s)).
Proof.
  revert s. induction p as [A a|A e|A g k IH|A R rq k IH|A c IHc k IH];
    intros s Hp; cbn in *; auto.
  - destruct Hp as [Hg Hk]. destruct (IH (g s) Hk) as [H1 H2].
    split; [now rewrite H1|exact H2].
  - destruct Hp as [Hc Hk].
    destruct (advance c s) as [[s1 c'] fs1] eqn:E1.
    destruct (advance k s1) as [[s2 k'] fs2] eqn:E2. cbn.
    destruct (IHc s Hc) as [A1 [A2 A3]]. rewrite E1 in *. cbn in *.
    destruct (IH s1 Hk) as [B1 [B2 B3]]. rewrite E2 in *. cbn in *.
    split; [congruence|]. split; [exact B2|].
    apply Forall_app. split; [exact A3|]. constructor; assumption.
Qed.

Lemma Forall_replace_nth {A} (P : A -> Prop) (i : nat) (x : A) (l : list A) :
  P x -> Forall P l -> Forall P (replace_nth i x l).
Proof.
  intros Hx Hl. revert i. induction Hl as [|y l Hy Hl IH]; intros i; cbn.
  - destruct i; constructor.
  - destruct i; constructor; auto.
Qed.

Lemma nth_error_Forall {A} (P : A -> Prop) (i : nat) (x : A) (l : list A) :
  Forall P l -> nth_error l i = Some x -> P x.
Proof.
  intros Hl Hn. apply nth_error_In in Hn.
  rewrite Forall_forall in Hl. now apply Hl.
Qed.

Lemma spawn_tame (p : Prog ChatWindow.State unit) (l : Loop ChatWindow.State) :
  tame p -> Forall tame (threads l) ->
  Forall tame (threads (spawn p l))
  /\ ChatWindow.channels (ui (spawn p l)) = ChatWindow.channels (ui l).
Proof.
  intros Hp Hl. unfold spawn.
  destruct (advance_tame p (ui l) Hp) as [H1 [H2 H3]].
  destruct (advance p (ui l)) as [[s p'] fs]. cbn in *.
  split; [|exact H1]. apply Forall_app. split; [exact Hl|].
  constructor; assumption.
Qed.

Lemma commit_tame (uid : string) (i : nat) (e : Env) (l : Loop ChatWindow.State) :
  Forall tame (threads l) ->
  Forall tame (threads (commit uid i e l))
  /\ ui (commit uid i e l) = ui l.
Proof.
  intros Hl. unfold commit.
  destruct (nth_error (threads l) i) as [p|] eqn:E; [|now split].
  pose proof (nth_error_Forall _ _ _ _ Hl E) as Hp.
  destruct p as [a|err|g k|R rq k|c k]; try now split.
  destruct (serve uid e (store l) rq) as [st' r]. cbn. split; [|reflexivity].
  apply Forall_replace_nth; [apply Hp|exact Hl].
Qed.

Lemma resume_tame (i : nat) (l : Loop ChatWindow.State) :
  Forall tame (threads l) ->
  Forall tame (threads (resume i l))
  /\ ChatWindow.channels (ui (resume i l)) = ChatWindow.channels (ui l).
Proof.
  intros Hl. unfold resume.
  destruct (nth_error (threads l) i) as [p|] eqn:E; [|now split].
  pose proof (nth_error_Forall _ _ _ _ Hl E) as Hp.
  destruct (advance_tame p (ui l) Hp) as [H1 [H2 H3]].
  destruct (advance p (ui l)) as [[s p'] fs]. cbn in *.
  split; [|exact H1]. apply Forall_app. split; [|exact H3].
  now apply Forall_replace_nth.
Qed.

Lemma step_well_subscribed (w : ChatWindow.World) (st : ChatWindow.Step) :
  well_subscribed w -> well_subscribed (ChatWindow.step w st).
Proof.
  intros [Ht [Htd Hch]].
  destruct st as [u' f'|text|file blob| |clock|i e|i|ev]; cbn [ChatWindow.step].
  - assert (Hc : Forall tame (threads (ChatWindow.loop (ChatWindow.run_cleanup w)))
                 /\ ChatWindow.channels
                      (ui (ChatWindow.loop (ChatWindow.run_cleanup w))) = []).
    { unfold ChatWindow.run_cleanup.
      destruct (ChatWindow.teardown w) as [ch|]; cbn; [|now split].
      split; [exact Ht|]. rewrite Hch. cbn. now rewrite String.eqb_refl. }
    destruct Hc as [Hc1 Hc2]. revert Hc1 Hc2.
    generalize (ChatWindow.run_cleanup w) as w'. intros w' Hc1 Hc2.
    unfold ChatWindow.run_effect, ChatWindow.effect.
    pose proof (tame_fetchMessages u' f') as Hf.
    destruct u' as [u'|], f' as [f'|]; cbn in *;
      (split; [apply Forall_app; split; [exact Hc1|repeat constructor; exact Hf]|]);
      (split; [reflexivity|]); cbn; rewrite ?Hc2; try reflexivity; exact Hc2.
  - repeat split; assumption.
  - repeat split; try assumption. cbn. rewrite <- Hch.
    unfold ChatWindow.handleFileSelect. destruct file as [f|]; [|reflexivity].
    now destruct (_ <? _)%N.
  - repeat split; try assumption. cbn. rewrite <- Hch.
    unfold ChatWindow.clearSelectedFile.
    now destruct (ChatWindow.previewUrl _).
  - destruct (spawn_tame _ (ChatWindow.loop w)
                (tame_sendMessage (ChatWindow.user w) (ChatWindow.friend w)
                   (ChatWindow.newMessage (ui (ChatWindow.loop w)))
                   (ChatWindow.selectedFile (ui (ChatWindow.loop w)))
                   (ChatWindow.previewUrl (ui (ChatWindow.loop w))) clock) Ht)
      as [H1 H2].
    repeat split; cbn; [exact H1|exact Htd|now rewrite H2].
  - destruct (commit_tame (ChatWindow.uid w) i e (ChatWindow.loop w) Ht) as [H1 H2].
    repeat split; cbn; [exact H1|exact Htd|now rewrite H2].
  - destruct (resume_tame i (ChatWindow.loop w) Ht) as [H1 H2].
    repeat split; cbn; [exact H1|exact Htd|now rewrite H2].
  - repeat split; cbn; [exact Ht|exact Htd|now rewrite deliver_channels].
Qed.

(** Whatever happens to the component, it holds one channel at most:
    the channel of the conversation it shows. *)
Lemma reachable_well_subscribed (st : Store.t) (trace : list ChatWindow.Step) :
  well_subscribed (ChatWindow.exec (ChatWindow.initial st) trace).
Proof.
  unfold ChatWindow.exec.
  assert (H0 : well_subscribed (ChatWindow.initial st))
    by (repeat split; constructor).
  revert H0. generalize (ChatWindow.initial st) as w.
  induction trace as [|s trace IH]; intros w Hw; cbn; [exact Hw|].
  apply IH. now apply step_well_subscribed.
Qed.

Lemma in_conversation_other (u a b : string) (m : Message.t) :
  a <> b -> in_conversation u a m = true -> in_conversation u b m = false.
Proof.
  unfold in_conversation. intros Hab H.
  apply orb_true_iff in H. rewrite !andb_true_iff, !String.eqb_eq in H.
  apply orb_false_iff. rewrite !andb_false_iff, !String.eqb_neq.
  destruct H as [[Hs Hr]|[Hs Hr]]; split.
  - right. congruence.
  - destruct (String.eqb_spec (Message.sender_id m) b); [|now left].
    right. congruence.
  - destruct (String.eqb_spec (Message.sender_id m) u); [|now left].
    right. congruence.
  - left. congruence.
Qed.

Lemma feed_not_taken (w : ChatWindow.World) (ch : ChatWindow.Channel)
  (ev : ChangeEvent) :
  ChatWindow.channels (ui (ChatWindow.loop w)) = [ch] ->
  ChatWindow.matches ch ev = false ->
  ChatWindow.step w (ChatWindow.Feed ev) = w.
Proof.
  intros Hch Hm. cbn. unfold poke. rewrite deliver_spec, Hch. cbn.
  rewrite Hm. cbn. now destruct w as [[st s ths] us fr td].
Qed.

Lemma step_props (w : ChatWindow.World) (st : ChatWindow.Step) :
  is_render st = false ->
  ChatWindow.user (ChatWindow.step w st) = ChatWindow.user w
  /\ ChatWindow.friend (ChatWindow.step w st) = ChatWindow.friend w.
Proof. destruct st; cbn; intros H; try discriminate; now split. Qed.

(** Between two renders, pushed changes that the live channel does not
    take can be struck from the trace. *)
Lemma exec_drops_untaken (u : User.t) (b : Profile.t) (trace : list ChatWindow.Step)
  (w : ChatWindow.World) :
  well_subscribed w ->
  ChatWindow.user w = Some u -> ChatWindow.friend w = Some b ->
  forallb (fun st => negb (is_render st)) trace = true ->
  ChatWindow.exec w trace
  = ChatWindow.exec w (filter (taken_by (ChatWindow.channel_for u b)) trace).
Proof.
  unfold ChatWindow.exec. revert w.
  induction trace as [|st trace IH]; intros w Hw Hu Hf Hnr; [reflexivity|].
  cbn in Hnr. apply andb_true_iff in Hnr. destruct Hnr as [Hst Hnr].
  apply negb_true_iff in Hst.
  assert (Hch : ChatWindow.channels (ui (ChatWindow.loop w))
                = [ChatWindow.channel_for u b]).
  { destruct Hw as [_ [Htd Hch]]. rewrite Hch, Htd, Hu, Hf. reflexivity. }
  cbn [filter fold_left].
  destruct (taken_by (ChatWindow.channel_for u b) st) eqn:Htk.
  - cbn [fold_left]. destruct (step_props w st Hst) as [Hu' Hf'].
    apply IH; [now apply step_well_subscribed|congruence|congruence|exact Hnr].
  - destruct st; try discriminate. cbn in Htk.
    rewrite (feed_not_taken w _ ev Hch Htk). now apply IH.
Qed.

Lemma exec_feeds_log (ch : ChatWindow.Channel) (evs : list ChangeEvent)
  (w : ChatWindow.World) :
  ChatWindow.channels (ui (ChatWindow.loop w)) = [ch] ->
  ChatWindow.messages
    (ui (ChatWindow.loop (ChatWindow.exec w (map ChatWindow.Feed evs))))
  = fold_left (fun log ev => ChatWindow.on_insert (new ev) log)
      (filter (ChatWindow.matches ch) evs)
      (ChatWindow.messages (ui (ChatWindow.loop w))).
Proof.
  unfold ChatWindow.exec. revert w.
  induction evs as [|ev evs IH]; intros w Hch; [reflexivity|].
  cbn [map fold_left filter].
  rewrite IH by (cbn; now rewrite deliver_channels).
  cbn. rewrite deliver_messages, Hch. unfold applied. cbn.
  rewrite orb_false_r. now destruct (ChatWindow.matches ch ev).
Qed.

(** C3: the component shows conversation A and is rendered with friend B.
    The cleanup releases A's channel before the effect creates B's, so that
    no channel is live in between and B's is the only one afterwards; from
    then on a pushed change that B's channel does not take, among them
    every change of conversation A, leaves the component as it is, and the
    log grows by changes of conversation B only. *)
Theorem no_cross_talk_after_switch
  (st : Store.t) (before after : list ChatWindow.Step) (u : User.t)
  (a b : Profile.t) :
  let w := ChatWindow.exec (ChatWindow.initial st) before in
  ChatWindow.user w = Some u -> ChatWindow.friend w = Some a ->
  Profile.id a <> Profile.id b ->
  forallb (fun s => negb (is_render s)) after = true ->
  let w1 := ChatWindow.step w (ChatWindow.Render (Some u) (Some b)) in
  let chB := ChatWindow.channel_for u b in
  ChatWindow.channels (ui (ChatWindow.loop w)) = [ChatWindow.channel_for u a]
  /\ ChatWindow.channels (ui (ChatWindow.loop (ChatWindow.run_cleanup w))) = []
  /\ ChatWindow.channels (ui (ChatWindow.loop w1)) = [chB]
  /\ ChatWindow.exec w1 after = ChatWindow.exec w1 (filter (taken_by chB) after)
  /\ (forall ev, in_conversation (User.id u) (Profile.id a) (new ev) = true ->
                 taken_by chB (ChatWindow.Feed ev) = false)
  /\ (forall evs,
        ChatWindow.messages
          (ui (ChatWindow.loop (ChatWindow.exec w1 (map ChatWindow.Feed evs))))
        = fold_left (fun log ev => ChatWindow.on_insert (new ev) log)
            (filter (fun ev => ChangeType_eqb INSERT (eventType ev)
                               && in_conversation (User.id u) (Profile.id b) (new ev))
               evs)
            (ChatWindow.messages (ui (ChatWindow.loop w)))).
Proof.
  intros w Hu Hf Hab Hnr w1 chB.
  pose proof (reachable_well_subscribed st before) as Hw. fold w in Hw.
  pose proof (step_well_subscribed w (ChatWindow.Render (Some u) (Some b)) Hw)
    as Hw1. fold w1 in Hw1.
  assert (HchA : ChatWindow.channels (ui (ChatWindow.loop w))
                 = [ChatWindow.channel_for u a]).
  { destruct Hw as [_ [Htd Hch]]. now rewrite Hch, Htd, Hu, Hf. }
  assert (HtdA : ChatWindow.teardown w = Some (ChatWindow.channel_for u a)).
  { destruct Hw as [_ [Htd _]]. now rewrite Htd, Hu, Hf. }
  assert (Hu1 : ChatWindow.user w1 = Some u) by reflexivity.
  assert (Hf1 : ChatWindow.friend w1 = Some b) by reflexivity.
  assert (HchB : ChatWindow.channels (ui (ChatWindow.loop w1)) = [chB]).
  { destruct Hw1 as [_ [Htd Hch]]. now rewrite Hch, Htd, Hu1, Hf1. }
  split; [exact HchA|]. split.
  { unfold ChatWindow.run_cleanup. rewrite HtdA. cbn. rewrite HchA. cbn.
    now rewrite String.eqb_refl. }
  split; [exact HchB|]. split.
  { now apply exec_drops_untaken. }
  split.
  { intros ev Hev. cbn. unfold ChatWindow.matches. cbn.
    rewrite (in_conversation_other _ _ _ _ Hab Hev). apply andb_false_r. }
  intros evs. rewrite (exec_feeds_log chB evs w1 HchB).
  f_equal.
  unfold w1, ChatWindow.step, ChatWindow.run_effect, ChatWindow.run_cleanup.
  rewrite HtdA. cbn. reflexivity.
Qed.

Lemma no_cross_talk_after_switch_witness :
  let u := User.mk "u" None in
  let a := Profile.mk "a" None None None "t" "t" in
  let b := Profile.mk "b" None None None "t" "t" in
  let fromA := Message.mk "m1" "a" "u" (Some "hi") None None None false "2026-01-01" in
  let fromB := Message.mk "m2" "b" "u" (Some "yo") None None None false "2026-01-02" in
  let w1 := ChatWindow.exec (ChatWindow.initial (Store.mk [] [] []))
              [ChatWindow.Render (Some u) (Some a);
               ChatWindow.Render (Some u) (Some b)] in
  ChatWindow.messages
    (ui (ChatWindow.loop
           (ChatWindow.exec w1
              (map ChatWindow.Feed [mkEvent INSERT fromA; mkEvent INSERT fromB]))))
  = [fromB].
Proof.
  cbn zeta.
  refine (proj2 (proj2 (proj2 (proj2 (proj2
    (no_cross_talk_after_switch (Store.mk [] [] [])
       [ChatWindow.Render (Some (User.mk "u" None))
          (Some (Profile.mk "a" None None None "t" "t"))]
       [] (User.mk "u" None)
       (Profile.mk "a" None None None "t" "t")
       (Profile.mk "b" None None None "t" "t")
       eq_refl eq_refl _ eq_refl)))))
    [mkEvent INSERT
       (Message.mk "m1" "a" "u" (Some "hi") None None None false "2026-01-01");
     mkEvent INSERT
       (Message.mk "m2" "b" "u" (Some "yo") None None None false "2026-01-02")]).
  discriminate.
Defined.

(** ** Confirmed write and echo *)

(** The echo after the confirmed write is dropped; the confirmed write
    after the echo is appended all the same. *)
Lemma dedup_depends_on_order (log : list Message.t) (row : Message.t) :
  count_id (Message.id row) log = 0 ->
  count_id (Message.id row) (ChatWindow.on_insert row (log ++ [row])) = 1
  /\ count_id (Message.id row) (ChatWindow.on_insert row log ++ [row]) = 2.
Proof.
  unfold count_id, ChatWindow.on_insert. intros H0.
  assert (He : existsb (fun m => Message.id m =? Message.id row) log = false).
  { induction log as [|y l IH]; [reflexivity|]. cbn in *.
    destruct (Message.id y =? Message.id row); [discriminate|]. now apply IH. }
  rewrite He, existsb_app. cbn. rewrite String.eqb_refl, orb_true_r.
  rewrite !filter_app, !length_app. cbn. rewrite String.eqb_refl. cbn. lia.
Qed.

(** C1 holds in one order only.  The user sends "hi" in the conversation
    with [a] and the store writes row [m1]: when the reply resumes
    [sendMessage] before the echo is pushed the log holds [m1] once; when
    the echo is pushed first, the confirmed write is appended to it and the
    log holds [m1] twice. *)
Theorem echo_before_reply_duplicates :
  let u := User.mk "u" (Some "me@example.org") in
  let a := Profile.mk "a" (Some "alice") None None "t" "t" in
  let row := Message.mk "m1" "u" "a" (Some "hi") None None None false "2026-01-01" in
  let sent := [ChatWindow.Render (Some u) (Some a); ChatWindow.Input "hi";
               ChatWindow.Submit "1";
               ChatWindow.Commit 1 (mkEnv None "m1" "2026-01-01")] in
  let echo := ChatWindow.Feed (mkEvent INSERT row) in
  let log tr := ChatWindow.messages
                  (ui (ChatWindow.loop
                         (ChatWindow.exec (ChatWindow.initial (Store.mk [] [] [])) tr))) in
  Store.messages
    (store (ChatWindow.loop
              (ChatWindow.exec (ChatWindow.initial (Store.mk [] [] [])) sent)))
  = [row]
  /\ log (sent ++ [ChatWindow.Resume 1; echo]) = [row]
  /\ log (sent ++ [echo; ChatWindow.Resume 1]) = [row; row]
  /\ count_id "m1" (log (sent ++ [echo; ChatWindow.Resume 1])) = 2.
Proof. vm_compute. repeat split. Qed.

(** ** Friendship status *)

(** No call deletes a Friendship row or changes the id of one. *)
Lemma serve_never_deletes (uid : string) (e : Env) (st : Store.t) {R}
  (rq : RemoteCall R) :
  exists extra,
    map Friendship.id (Store.friendships (fst (serve uid e st rq)))
    = map Friendship.id (Store.friendships st) ++ extra.
Proof.
  assert (Hmap : forall id s l,
            map Friendship.id (map (set_status id s) l) = map Friendship.id l).
  { intros id s l. rewrite map_map. apply map_ext. intros f.
    unfold set_status. now destruct (Friendship.id f =? id). }
  destruct rq; cbn; destruct (fault e); cbn;
    try (exists []; now rewrite app_nil_r).
  - destruct (existsb _ _); cbn.
    + exists []. now rewrite app_nil_r.
    + eexists. now rewrite map_app.
  - destruct (find _ _) as [f|]; cbn; [|exists []; now rewrite app_nil_r].
    destruct (Friendship.addressee_id f =? uid); cbn;
      exists []; now rewrite app_nil_r, ?Hmap.
Qed.

(** C4 fails on a second response.  A pending request [f1] is listed; Accept
    is pressed, the store sets [f1] to [accepted] and "Friend Added" is
    shown; Decline is pressed before the refetch has come back, the store
    sets [f1] to [rejected] and "Request Declined" is shown. *)
Theorem respond_twice_leaves_terminal_state :
  let me := User.mk "u" None in
  let f1 st := Friendship.mk "f1" "a" "u" st "2026-01-01" in
  let w0 := mkLoop (Store.mk [f1 pending] [] [])
              (Notifications.mkState [] [] true []) [] in
  let listed := [Notifications.Feed; Notifications.Commit 0 quiet;
                 Notifications.Resume 0; Notifications.Commit 0 quiet;
                 Notifications.Resume 0] in
  let accept := [Notifications.Press "f1" true; Notifications.Commit 1 quiet;
                 Notifications.Resume 1;
                 Notifications.Commit 1 (mkEnv None "n1" "2026-01-02");
                 Notifications.Resume 1] in
  let decline := [Notifications.Press "f1" false; Notifications.Commit 3 quiet;
                  Notifications.Resume 3] in
  Notifications.pendingRequests (ui (Notifications.exec me w0 listed))
  = [f1 pending]
  /\ Store.friendships (store (Notifications.exec me w0 (listed ++ accept)))
     = [f1 accepted]
  /\ Notifications.pendingRequests
       (ui (Notifications.exec me w0 (listed ++ accept)))
     = [f1 pending]
  /\ Store.friendships
       (store (Notifications.exec me w0 (listed ++ accept ++ decline)))
     = [f1 rejected]
  /\ Notifications.toasts
       (ui (Notifications.exec me w0 (listed ++ accept ++ decline)))
     = [Notifications.responded true; Notifications.responded false].
Proof. vm_compute. repeat split. Qed.

(** * Further properties of the components *)

(** ** [sendMessage]: the guard and the successful send *)

Lemma trimStart_blank (s : string) : blank s = true -> trimStart s = "".
Proof.
  unfold blank. induction s as [|c s IH]; cbn; [reflexivity|].
  destruct (is_space c); cbn; [exact IH|discriminate].
Qed.

Lemma trimEnd_empty (s : string) : trimEnd s = "" -> blank s = true.
Proof.
  unfold blank. induction s as [|c s IH]; cbn; [reflexivity|].
  destruct (is_space c); cbn; [|discriminate].
  destruct (trimEnd s =? "") eqn:E; [|discriminate].
  intros _. apply IH. now apply String.eqb_eq.
Qed.

Lemma trimStart_suffix_blank (s : string) :
  blank (trimStart s) = true -> blank s = true.
Proof.
  unfold blank. induction s as [|c s IH]; cbn; [reflexivity|].
  destruct (is_space c) eqn:E; cbn; [exact IH|].
  now rewrite E.
Qed.

(** The trimmed text is empty exactly for a text of white space only. *)
Lemma trim_blank (s : string) : truthy (trim s) = false <-> blank s = true.
Proof.
  unfold truthy, trim. rewrite negb_false_iff, String.eqb_eq. split.
  - intros H. apply trimStart_suffix_blank. now apply trimEnd_empty.
  - intros H. now rewrite (trimStart_blank s H).
Qed.

(** NO-BREAK SPACE is white space for [trim]: it is stripped at both ends,
    and a text made of it alone is nothing to send. *)
Lemma trim_no_break_space :
  let nbsp := String (ascii_of_nat 160) "" in
  trim (nbsp ++ " hi" ++ nbsp)%string = "hi"
  /\ blank nbsp = true
  /\ ChatWindow.sendMessage (Some (User.mk "u" None))
       (Some (Profile.mk "a" None None None "t" "t")) nbsp None None "1"
     = Ret tt.
Proof. vm_compute. repeat split. Qed.

(** X1: a submit with nothing to send (white space only and no file) or
    with no signed-in user or no open friend is the empty program: no
    remote call is made and neither store nor state changes. *)
Theorem sendMessage_blank_is_noop
  (user : option User.t) (friend : option Profile.t) (text : string)
  (file : option File.t) (purl : option string) (clock uid : string)
  (envs : list Env) (st : Store.t) (s : ChatWindow.State) :
  (blank text = true /\ file = None) \/ user = None \/ friend = None ->
  ChatWindow.sendMessage user friend text file purl clock = Ret tt
  /\ run uid (ChatWindow.sendMessage user friend text file purl clock) envs st s
     = mkRun (Returned tt) st s [].
Proof.
  intros H.
  assert (E : ChatWindow.sendMessage user friend text file purl clock = Ret tt).
  { unfold ChatWindow.sendMessage.
    destruct user as [u|], friend as [fr|]; try reflexivity.
    destruct H as [[Hb ->]|[H|H]]; try discriminate.
    apply trim_blank in Hb. now rewrite Hb. }
  split; [exact E|]. now rewrite E.
Qed.

Lemma sendMessage_blank_is_noop_witness :
  ChatWindow.sendMessage (Some (User.mk "u" None))
    (Some (Profile.mk "a" None None None "t" "t")) "  " None None "1"
  = Ret tt.
Proof.
  apply (sendMessage_blank_is_noop (Some (User.mk "u" None))
           (Some (Profile.mk "a" None None None "t" "t")) "  " None None "1"
           "u" [] (Store.mk [] [] [])
           (ChatWindow.mkState [] "  " false None None [] [])).
  left. split; reflexivity.
Defined.

(** X2: a text message that the store accepts is written once, with the
    trimmed text as content, no media and the read flag off; the row
    appended to the log is the row the store wrote; the input is emptied;
    and one [message] Notification is written for the receiver, naming the
    sender by the part of the e-mail address before the at sign. *)
Theorem sendMessage_text_success
  (u : User.t) (fr : Profile.t) (text : string) (purl : option string)
  (clock : string) (e2 e3 : Env) (envs : list Env) (st : Store.t)
  (s : ChatWindow.State) :
  blank text = false -> fault e2 = None -> fault e3 = None ->
  let r := run (User.id u)
             (ChatWindow.sendMessage (Some u) (Some fr) text None purl clock)
             (e2 :: e3 :: envs) st s in
  let row := Message.mk (new_id e2) (User.id u) (Profile.id fr)
               (Some (trim text)) None None None false (now e2) in
  store_after r
  = Store.mk (Store.friendships st) (Store.messages st ++ [row])
      (Store.notifications st
       ++ [Notification.mk (new_id e3) (Profile.id fr) NotificationType.message
             ("New message from " ++
              match User.email u with
              | Some em => split_first "@" em
              | None => "undefined"
              end)%string
             (Some (User.id u)) false (now e3)])
  /\ ChatWindow.messages (state_after r) = ChatWindow.messages s ++ [row]
  /\ ChatWindow.newMessage (state_after r) = ""
  /\ ChatWindow.loading (state_after r) = false
  /\ ChatWindow.toasts (state_after r) = ChatWindow.toasts s.
Proof.
  intros Hb H2 H3. cbn zeta.
  assert (Ht : truthy (trim text) = true).
  { destruct (truthy (trim text)) eqn:E; [reflexivity|].
    apply trim_blank in E. congruence. }
  rewrite (sendMessage_text_run u fr text purl clock e2 e3 envs st s Ht).
  rewrite H2. cbn. rewrite H2, H3. cbn. repeat split.
Qed.

Lemma sendMessage_text_success_witness :
  ChatWindow.messages
    (state_after
       (run "u"
          (ChatWindow.sendMessage (Some (User.mk "u" (Some "me@example.org")))
             (Some (Profile.mk "a" None None None "t" "t")) " hi " None None "1")
          [mkEnv None "m1" "2026-01-01"; mkEnv None "n1" "2026-01-01"]
          (Store.mk [] [] [])
          (ChatWindow.mkState [] " hi " false None None [] [])))
  = [Message.mk "m1" "u" "a" (Some "hi") None None None false "2026-01-01"].
Proof.
  apply (sendMessage_text_success (User.mk "u" (Some "me@example.org"))
           (Profile.mk "a" None None None "t" "t") " hi " None "1"
           (mkEnv None "m1" "2026-01-01") (mkEnv None "n1" "2026-01-01") []
           (Store.mk [] [] [])
           (ChatWindow.mkState [] " hi " false None None [] [])
           eq_refl eq_refl eq_refl).
Defined.

(** X3: an attachment sent without text is accepted: the row written has
    no content and carries the public URL of the uploaded file, the media
    kind of the file and its name; it is the row appended to the log, and
    the chosen file is dropped from the form. *)
Theorem sendMessage_media_only_success
  (u : User.t) (fr : Profile.t) (text : string) (f : File.t)
  (purl : option string) (clock : string) (e1 e2 e3 : Env) (envs : list Env)
  (st : Store.t) (s : ChatWindow.State) :
  blank text = true ->
  fault e1 = None -> fault e2 = None -> fault e3 = None ->
  let r := run (User.id u)
             (ChatWindow.sendMessage (Some u) (Some fr) text (Some f) purl clock)
             (e1 :: e2 :: e3 :: envs) st s in
  let path := (User.id u ++ "/" ++ clock ++ "." ++ split_last "." (File.name f))%string in
  let row := Message.mk (new_id e2) (User.id u) (Profile.id fr) None
               (Some (ChatWindow.getPublicUrl path))
               (Some (ChatWindow.getMediaType f)) (Some (File.name f))
               false (now e2) in
  Store.messages (store_after r) = Store.messages st ++ [row]
  /\ ChatWindow.messages (state_after r) = ChatWindow.messages s ++ [row]
  /\ ChatWindow.selectedFile (state_after r) = None
  /\ ChatWindow.toasts (state_after r) = ChatWindow.toasts s.
Proof.
  intros Hb H1 H2 H3. cbn zeta. apply trim_blank in Hb.
  rewrite (sendMessage_media_run u fr text f purl clock e1 e2 e3 envs st s H1).
  rewrite H2, Hb. cbn. rewrite H2, H3. cbn. repeat split.
Qed.

Lemma sendMessage_media_only_success_witness :
  ChatWindow.messages
    (state_after
       (run "u"
          (ChatWindow.sendMessage (Some (User.mk "u" None))
             (Some (Profile.mk "a" None None None "t" "t")) ""
             (Some (File.mk "cat.png" "image/png" 2048%N)) None "17")
          [quiet; mkEnv None "m1" "2026-01-01"; mkEnv None "n1" "2026-01-01"]
          (Store.mk [] [] [])
          (ChatWindow.mkState [] "" false
             (Some (File.mk "cat.png" "image/png" 2048%N)) None [] [])))
  = [Message.mk "m1" "u" "a" None
       (Some "/storage/v1/object/public/chat-media/u/17.png")
       (Some MediaType.image) (Some "cat.png") false "2026-01-01"].
Proof.
  apply (sendMessage_media_only_success (User.mk "u" None)
           (Profile.mk "a" None None None "t" "t") ""
           (File.mk "cat.png" "image/png" 2048%N) None "17"
           quiet (mkEnv None "m1" "2026-01-01") (mkEnv None "n1" "2026-01-01") []
           (Store.mk [] [] [])
           (ChatWindow.mkState [] "" false
              (Some (File.mk "cat.png" "image/png" 2048%N)) None [] [])
           eq_refl eq_refl eq_refl eq_refl).
Defined.

(** X4: whatever the store answers, [sendMessage] comes to an end without
    an uncaught error and without leaving a call behind; when it has
    started a send the loading flag is off again at the end; and it shows
    at most one toast, a destructive one. *)
Theorem sendMessage_always_settles
  (user : option User.t) (friend : option Profile.t) (text : string)
  (file : option File.t) (purl : option string) (clock uid : string)
  (envs : list Env) (st : Store.t) (s : ChatWindow.State) :
  let r := run uid (ChatWindow.sendMessage user friend text file purl clock)
             envs st s in
  completion r = Returned tt
  /\ suspended r = []
  /\ (state_after r = s \/ ChatWindow.loading (state_after r) = false)
  /\ (ChatWindow.toasts (state_after r) = ChatWindow.toasts s
      \/ exists t, variant t = destructive
                   /\ ChatWindow.toasts (state_after r)
                      = ChatWindow.toasts s ++ [t]).
Proof.
  cbn zeta. unfold ChatWindow.sendMessage.
  destruct user as [u|], friend as [fr|]; cbn; auto.
  destruct (negb (truthy (trim text)) && _) eqn:G; cbn; auto.
  assert (Hrest : forall mediaUrl mediaType fileName envs0,
    let r := run uid
      (finally
         (try_catch
            (r <- await (InsertMessage
                           (MessageInsert.mk (User.id u) (Profile.id fr)
                              (if truthy (trim text) then Some (trim text) else None)
                              mediaUrl mediaType fileName)) ;;
             match error r with
             | Some e => Throw e
             | None =>
                 match data r with
                 | Some d => update (ChatWindow.setMessages (fun prev => prev ++ [d]))
                 | None => Ret tt
                 end ;;
                 _ <- await (InsertNotification
                               (NotificationInsert.mk (Profile.id fr)
                                  NotificationType.message
                                  ("New message from " ++
                                   match User.email u with
                                   | Some em => split_first "@" em
                                   | None => "undefined"
                                   end)%string
                                  (Some (User.id u)))) ;;
                 update (ChatWindow.setNewMessage "") ;;
                 update (ChatWindow.clearSelectedFile purl)
             end)
            (fun e => update (ChatWindow.toast (mkToast "Error" (message e) destructive))))
         (update (ChatWindow.setLoading false)))
      envs0 st (ChatWindow.setLoading true s) in
    completion r = Returned tt /\ suspended r = []
    /\ ChatWindow.loading (state_after r) = false
    /\ (ChatWindow.toasts (state_after r) = ChatWindow.toasts s
        \/ exists t, variant t = destructive
                     /\ ChatWindow.toasts (state_after r)
                        = ChatWindow.toasts s ++ [t])).
  { intros mediaUrl mediaType fileName envs0. cbn.
    destruct (fault (hd quiet envs0)); cbn.
    - repeat split. right. eexists. split; [|reflexivity]. reflexivity.
    - destruct (fault (hd quiet (tl envs0))), purl; cbn; repeat split; now left. }
  destruct file as [f|]; cbn.
  - destruct (fault (hd quiet envs)); cbn.
    + repeat split; [now right|]. right. eexists. split; [|reflexivity]. reflexivity.
    + destruct (Hrest (Some (ChatWindow.getPublicUrl
                 (User.id u ++ "/" ++ clock ++ "." ++ split_last "." (File.name f))%string))
                 (Some (ChatWindow.getMediaType f)) (Some (File.name f)) (tl envs))
        as [A [B [C D]]].
      cbn in A, B, C, D. repeat split; auto.
  - destruct (Hrest None None None envs) as [A [B [C D]]].
    cbn in A, B, C, D. repeat split; auto.
Qed.

(** ** The feed callback keeps the log well formed *)

Lemma existsb_id_In (x : Message.t) (l : list Message.t) :
  existsb (fun m => Message.id m =? Message.id x) l = false ->
  ~ In (Message.id x) (ids l).
Proof.
  unfold ids. induction l as [|y l IH]; cbn; [tauto|].
  intros H. apply orb_false_iff in H. destruct H as [H1 H2].
  apply String.eqb_neq in H1. intros [E|E]; [congruence|now apply IH].
Qed.

Lemma on_insert_extends (x : Message.t) (l : list Message.t) :
  NoDup (ids l) ->
  NoDup (ids (ChatWindow.on_insert x l))
  /\ (ChatWindow.on_insert x l = l \/ ChatWindow.on_insert x l = l ++ [x]).
Proof.
  intros Hnd. unfold ChatWindow.on_insert.
  destruct (existsb _ l) eqn:E; [now split; [|left]|].
  split; [|now right]. unfold ids. rewrite map_app. cbn.
  apply NoDup_app; [exact Hnd|repeat constructor; intros []|].
  intros i Hi [<-|[]]. now apply (existsb_id_In x l E).
Qed.

(** X5: pushed changes never put two entries with one id into a log whose
    ids are distinct, and never drop or reorder an entry: the log after
    any sequence of deliveries is the log before, followed by payloads of
    delivered changes that a live channel took. *)
Theorem feed_keeps_ids_distinct (s : ChatWindow.State) (evs : list ChangeEvent) :
  NoDup (ids (ChatWindow.messages s)) ->
  let s' := fold_left (fun s' ev => ChatWindow.deliver ev s') evs s in
  NoDup (ids (ChatWindow.messages s'))
  /\ exists tail,
       ChatWindow.messages s' = ChatWindow.messages s ++ tail
       /\ forall m, In m tail ->
                    exists ev, In ev evs /\ new ev = m
                               /\ applied (ChatWindow.channels s) ev = true.
Proof.
  cbn zeta. revert s. induction evs as [|ev evs IH]; intros s Hnd; cbn.
  - split; [exact Hnd|]. exists []. rewrite app_nil_r. split; [reflexivity|].
    intros m [].
  - assert (Hstep :
      NoDup (ids (ChatWindow.messages (ChatWindow.deliver ev s)))
      /\ (ChatWindow.messages (ChatWindow.deliver ev s) = ChatWindow.messages s
          \/ (ChatWindow.messages (ChatWindow.deliver ev s)
              = ChatWindow.messages s ++ [new ev]
              /\ applied (ChatWindow.channels s) ev = true))).
    { rewrite deliver_messages.
      destruct (applied (ChatWindow.channels s) ev); [|now split; [|left]].
      destruct (on_insert_extends (new ev) _ Hnd) as [H1 [H2|H2]];
        (split; [exact H1|]); [now left|now right]. }
    destruct Hstep as [Hnd' Hlog].
    destruct (IH (ChatWindow.deliver ev s) Hnd') as [H1 [tail [H2 H3]]].
    rewrite deliver_channels in H3.
    split; [exact H1|].
    destruct Hlog as [Hlog|[Hlog Happ]]; rewrite Hlog in H2.
    + exists tail. split; [exact H2|]. intros m Hm.
      destruct (H3 m Hm) as [ev' [Hin Hev]]. exists ev'. split; [now right|exact Hev].
    + exists (new ev :: tail). rewrite <- app_assoc in H2. split; [exact H2|].
      intros m [<-|Hm].
      * exists ev. split; [now left|now split].
      * destruct (H3 m Hm) as [ev' [Hin Hev]]. exists ev'.
        split; [now right|exact Hev].
Qed.

Lemma feed_keeps_ids_distinct_witness :
  let s := ChatWindow.mkState [] "" false None None []
             [ChatWindow.channel_for (User.mk "u" None)
                (Profile.mk "a" None None None "t" "t")] in
  let m := Message.mk "m1" "a" "u" (Some "hi") None None None false "2026-01-01" in
  NoDup (ids (ChatWindow.messages
                (fold_left (fun s' ev => ChatWindow.deliver ev s')
                   [mkEvent INSERT m; mkEvent INSERT m] s))).
Proof.
  cbn zeta.
  apply (feed_keeps_ids_distinct
           (ChatWindow.mkState [] "" false None None []
              [ChatWindow.channel_for (User.mk "u" None)
                 (Profile.mk "a" None None None "t" "t")])
           [mkEvent INSERT
              (Message.mk "m1" "a" "u" (Some "hi") None None None false "2026-01-01");
            mkEvent INSERT
              (Message.mk "m1" "a" "u" (Some "hi") None None None false "2026-01-01")]).
  constructor.
Defined.

(** ** [fetchMessages] *)

Lemma insert_by_perm {A} (le : A -> A -> bool) (x : A) (l : list A) :
  Permutation (insert_by le x l) (x :: l).
Proof.
  induction l as [|y l IH]; cbn; [reflexivity|].
  destruct (le x y); [reflexivity|].
  rewrite IH. apply perm_swap.
Qed.

Lemma order_by_perm {A} (le : A -> A -> bool) (l : list A) :
  Permutation (order_by le l) l.
Proof.
  induction l as [|x l IH]; cbn; [reflexivity|].
  rewrite insert_by_perm. now constructor.
Qed.

Lemma insert_by_sorted {A} (le : A -> A -> bool) (x : A) (l : list A) :
  (forall a b, le a b = true \/ le b a = true) ->
  Sorted (fun a b => le a b = true) l ->
  Sorted (fun a b => le a b = true) (insert_by le x l).
Proof.
  intros Htot. induction l as [|y l IH]; intros Hs; cbn.
  - repeat constructor.
  - destruct (le x y) eqn:E.
    + constructor; [exact Hs|now constructor].
    + inversion Hs as [|? ? Hs' Hhd]; subst. constructor; [now apply IH|].
      assert (Hyx : le y x = true) by (destruct (Htot x y); congruence).
      destruct l as [|z l]; cbn; [now constructor|].
      destruct (le x z); constructor; [exact Hyx|].
      now inversion Hhd.
Qed.

Lemma order_by_sorted {A} (le : A -> A -> bool) (l : list A) :
  (forall a b, le a b = true \/ le b a = true) ->
  Sorted (fun a b => le a b = true) (order_by le l).
Proof.
  intros Htot. induction l as [|x l IH]; cbn; [constructor|].
  now apply insert_by_sorted.
Qed.

(** [fetchMessages] in one piece when both calls go through. *)
Lemma fetchMessages_run
  (u : User.t) (fr : Profile.t) (e1 e2 : Env) (envs : list Env)
  (st : Store.t) (s : ChatWindow.State) :
  fault e1 = None -> fault e2 = None ->
  run (User.id u) (ChatWindow.fetchMessages (Some u) (Some fr))
    (e1 :: e2 :: envs) st s
  = mkRun (Returned tt)
      (Store.mk (Store.friendships st)
         (map (mark_read (Profile.id fr) (User.id u)) (Store.messages st))
         (Store.notifications st))
      (ChatWindow.setMessages
         (fun _ => order_by oldest_first
                     (filter (in_conversation (User.id u) (Profile.id fr))
                        (Store.messages st))) s)
      [].
Proof.
  intros H1 H2. unfold ChatWindow.fetchMessages. cbn.
  rewrite H1. cbn. rewrite H2. reflexivity.
Qed.

(** X6: when its two calls go through, [fetchMessages] replaces the log,
    whatever it held, by the messages of the conversation as the store has
    them, every one of them once, in ascending order of [created_at]; in
    the store every message of the friend to the user is read afterwards,
    no row is added, removed or moved, and the other rows are as before. *)
Theorem fetchMessages_success
  (u : User.t) (fr : Profile.t) (e1 e2 : Env) (envs : list Env)
  (st : Store.t) (s : ChatWindow.State) :
  fault e1 = None -> fault e2 = None ->
  let r := run (User.id u) (ChatWindow.fetchMessages (Some u) (Some fr))
             (e1 :: e2 :: envs) st s in
  let log := ChatWindow.messages (state_after r) in
  let rows := Store.messages (store_after r) in
  Permutation log
    (filter (in_conversation (User.id u) (Profile.id fr)) (Store.messages st))
  /\ Sorted (fun a b => String.leb (Message.created_at a) (Message.created_at b)
                        = true) log
  /\ Forall (fun m => sent_to (Profile.id fr) (User.id u) m = true ->
                      Message.read m = true) rows
  /\ ids rows = ids (Store.messages st)
  /\ (forall m, In m (Store.messages st) ->
                sent_to (Profile.id fr) (User.id u) m = false -> In m rows)
  /\ Store.friendships (store_after r) = Store.friendships st
  /\ Store.notifications (store_after r) = Store.notifications st.
Proof.
  intros H1 H2. cbn zeta. rewrite (fetchMessages_run u fr e1 e2 envs st s H1 H2).
  cbn. split; [apply order_by_perm|]. split.
  { apply (order_by_sorted oldest_first). intros a b. apply String.leb_total. }
  split.
  { apply Forall_forall. intros m Hm. apply in_map_iff in Hm.
    destruct Hm as [m0 [<- _]]. unfold mark_read, sent_to.
    destruct ((Message.sender_id m0 =? Profile.id fr)
              && (Message.receiver_id m0 =? User.id u)
              && negb (Message.read m0)) eqn:C; [reflexivity|].
    intros Hs. rewrite Hs in C. cbn in C. now apply negb_false_iff in C. }
  split.
  { unfold ids. rewrite map_map. apply map_ext. intros m. unfold mark_read.
    now destruct (_ && _). }
  split; [|now split].
  intros m Hin Hs. apply in_map_iff. exists m. split; [|exact Hin].
  unfold mark_read. unfold sent_to in Hs. now rewrite Hs.
Qed.

Lemma fetchMessages_success_witness :
  Sorted (fun a b => String.leb (Message.created_at a) (Message.created_at b) = true)
    (ChatWindow.messages
       (state_after
          (run "u"
             (ChatWindow.fetchMessages (Some (User.mk "u" None))
                (Some (Profile.mk "a" None None None "t" "t")))
             [quiet; quiet]
             (Store.mk []
                [Message.mk "m2" "u" "a" (Some "yo") None None None false "2026-01-02";
                 Message.mk "m3" "b" "u" (Some "hey") None None None false "2026-01-03";
                 Message.mk "m1" "a" "u" (Some "hi") None None None false "2026-01-01"]
                [])
             (ChatWindow.mkState [] "" false None None [] [])))).
Proof.
  apply (proj1 (proj2 (fetchMessages_success (User.mk "u" None)
                (Profile.mk "a" None None None "t" "t") quiet quiet []
                (Store.mk []
                   [Message.mk "m2" "u" "a" (Some "yo") None None None false "2026-01-02";
                    Message.mk "m3" "b" "u" (Some "hey") None None None false "2026-01-03";
                    Message.mk "m1" "a" "u" (Some "hi") None None None false "2026-01-01"]
                   [])
                (ChatWindow.mkState [] "" false None None [] [])
                eq_refl eq_refl))).
Defined.

(** X7: a failed [fetchMessages] is silent.  When the query fails neither
    log nor store changes, no toast is shown and the messages are not
    marked as read; when only the marking fails the log is refreshed all
    the same and nothing is shown; with no user or no friend the function
    makes no call at all. *)
Theorem fetchMessages_failure_is_silent
  (u : User.t) (fr : Profile.t) (e1 e2 : Env) (envs : list Env)
  (st : Store.t) (s : ChatWindow.State) (err : Err) :
  (fault e1 = Some err ->
   run (User.id u) (ChatWindow.fetchMessages (Some u) (Some fr))
     (e1 :: envs) st s
   = mkRun (Returned tt) st s [])
  /\ (fault e1 = None -> fault e2 = Some err ->
      let r := run (User.id u) (ChatWindow.fetchMessages (Some u) (Some fr))
                 (e1 :: e2 :: envs) st s in
      store_after r = st
      /\ completion r = Returned tt
      /\ ChatWindow.toasts (state_after r) = ChatWindow.toasts s
      /\ ChatWindow.messages (state_after r)
         = order_by oldest_first
             (filter (in_conversation (User.id u) (Profile.id fr))
                (Store.messages st)))
  /\ (forall user friend, user = None \/ friend = None ->
      ChatWindow.fetchMessages user friend = Ret tt).
Proof.
  unfold ChatWindow.fetchMessages. split; [|split].
  - intros H1. cbn. now rewrite H1.
  - intros H1 H2. cbn. rewrite H1. cbn. rewrite H2. cbn. repeat split.
  - intros user friend [->| ->]; [reflexivity|]. now destruct user.
Qed.

Lemma fetchMessages_failure_is_silent_witness :
  run "u"
    (ChatWindow.fetchMessages (Some (User.mk "u" None))
       (Some (Profile.mk "a" None None None "t" "t")))
    [mkEnv (Some (RemoteError TransportError "network down")) "" ""]
    (Store.mk [] [] [])
    (ChatWindow.mkState [] "" false None None [] [])
  = mkRun (Returned tt) (Store.mk [] [] [])
      (ChatWindow.mkState [] "" false None None [] []) [].
Proof.
  apply (proj1 (fetchMessages_failure_is_silent (User.mk "u" None)
                  (Profile.mk "a" None None None "t" "t")
                  (mkEnv (Some (RemoteError TransportError "network down")) "" "")
                  quiet [] (Store.mk [] [] [])
                  (ChatWindow.mkState [] "" false None None [] [])
                  (RemoteError TransportError "network down")) eq_refl).
Defined.

(** ** [handleFileSelect] *)

Lemma preview_iff_media (f : File.t) :
  startsWith (File.type f) "image/" || startsWith (File.type f) "video/" = true
  <-> ChatWindow.getMediaType f <> MediaType.file.
Proof.
  unfold ChatWindow.getMediaType, startsWith.
  destruct (File.type f =? "image/gif") eqn:G.
  - apply String.eqb_eq in G. rewrite G. cbn. split; [discriminate|reflexivity].
  - destruct (String.prefix "image/" (File.type f)); cbn;
      [split; [discriminate|reflexivity]|].
    destruct (String.prefix "video/" (File.type f)); cbn;
      [split; [discriminate|reflexivity]|].
    split; [discriminate|congruence].
Qed.

(** X8: a file of more than 50 MB is refused with the toast "File too
    large" and the selection stays as it was; any other file, one of
    exactly 50 MB included, becomes the selection, and it gets a preview
    exactly when it will be sent as image, gif or video; dismissing the
    chooser changes nothing. *)
Theorem handleFileSelect_bounds (f : File.t) (blob : string) (s : ChatWindow.State) :
  ((52428800 < File.size f)%N ->
   ChatWindow.handleFileSelect (Some f) blob s
   = ChatWindow.toast
       (mkToast "File too large" "Maximum file size is 50MB" destructive) s)
  /\ ((File.size f <= 52428800)%N ->
      let s' := ChatWindow.handleFileSelect (Some f) blob s in
      ChatWindow.selectedFile s' = Some f
      /\ (ChatWindow.previewUrl s' = Some blob
          <-> ChatWindow.getMediaType f <> MediaType.file)
      /\ (ChatWindow.getMediaType f = MediaType.file ->
          ChatWindow.previewUrl s' = None)
      /\ ChatWindow.toasts s' = ChatWindow.toasts s
      /\ ChatWindow.messages s' = ChatWindow.messages s
      /\ ChatWindow.newMessage s' = ChatWindow.newMessage s)
  /\ ChatWindow.handleFileSelect None blob s = s.
Proof.
  unfold ChatWindow.handleFileSelect.
  change (50 * 1024 * 1024)%N with 52428800%N.
  split; [|split; [|reflexivity]].
  - intros H. apply N.ltb_lt in H. now rewrite H.
  - intros H. apply N.ltb_ge in H. rewrite H. cbn.
    pose proof (preview_iff_media f) as P.
    destruct (startsWith (File.type f) "image/" || startsWith (File.type f) "video/").
    + destruct P as [P _]. specialize (P eq_refl).
      repeat split; auto. intros E. contradiction.
    + assert (E : ChatWindow.getMediaType f = MediaType.file).
      { destruct (ChatWindow.getMediaType f) eqn:M; try reflexivity;
          destruct P as [_ P]; discriminate P; congruence. }
      repeat split; try discriminate; auto. intros H'. contradiction.
Qed.

Lemma handleFileSelect_bounds_witness :
  ChatWindow.selectedFile
    (ChatWindow.handleFileSelect (Some (File.mk "notes.pdf" "application/pdf" 52428800%N))
       "blob:1" (ChatWindow.mkState [] "" false None None [] []))
  = Some (File.mk "notes.pdf" "application/pdf" 52428800%N).
Proof.
  apply (proj1 (proj2 (handleFileSelect_bounds
                         (File.mk "notes.pdf" "application/pdf" 52428800%N) "blob:1"
                         (ChatWindow.mkState [] "" false None None [] [])))).
  cbn. discriminate.
Defined.

(** ** One subscription at a time *)

(** X9: whatever renders, inputs, submits, replies and pushed changes the
    component goes through, it holds one live channel at most: the channel
    of the conversation in its props when user and friend are present, and
    none otherwise. *)
Theorem one_live_subscription (st : Store.t) (trace : list ChatWindow.Step) :
  let w := ChatWindow.exec (ChatWindow.initial st) trace in
  length (ChatWindow.channels (ui (ChatWindow.loop w))) <= 1
  /\ ChatWindow.channels (ui (ChatWindow.loop w))
     = match ChatWindow.user w, ChatWindow.friend w with
       | Some u, Some fr => [ChatWindow.channel_for u fr]
       | _, _ => []
       end.
Proof.
  cbn zeta. destruct (reachable_well_subscribed st trace) as [_ [Htd Hch]].
  rewrite Hch, Htd.
  destruct (ChatWindow.user _) as [u|]; [|cbn; auto].
  destruct (ChatWindow.friend _) as [fr|]; cbn; auto.
Qed.

(** ** [sendFriendRequest] *)

Lemma insert_friendship_served (uid : string) (e : Env) (st : Store.t)
  (f : FriendshipInsert.t) :
  error (snd (serve uid e st (InsertFriendship f))) = None ->
  fst (serve uid e st (InsertFriendship f))
  = Store.mk (Store.friendships st ++ [new_friendship e f]) (Store.messages st)
      (Store.notifications st).
Proof.
  cbn. destruct (fault e); cbn; [discriminate|].
  destruct (existsb _ _); cbn; [discriminate|reflexivity].
Qed.

Lemma insert_notification_friendships (uid : string) (e : Env) (st : Store.t)
  (n : NotificationInsert.t) :
  Store.friendships (fst (serve uid e st (InsertNotification n)))
  = Store.friendships st
  /\ Store.messages (fst (serve uid e st (InsertNotification n)))
     = Store.messages st.
Proof. cbn. now destruct (fault e). Qed.

Lemma lookup_keeps_store (uid : string) (e : Env) (st : Store.t) (a b : string) :
  fst (serve uid e st (SelectFriendshipBetween a b)) = st.
Proof. cbn. now destruct (fault e). Qed.

(** X10: whatever the store answers, [sendFriendRequest] ends without an
    uncaught error, with the busy marker cleared and with exactly one new
    toast.  The toast is "Request Sent" only if the pending Friendship row
    from caller to target has been written; with any other toast, a
    destructive one, the store is as it was. *)
Theorem request_sent_only_if_row_written
  (u : User.t) (t name : string) (e1 e2 e3 : Env) (envs : list Env)
  (st : Store.t) (s : UserSearch.State) :
  let r := run (User.id u) (UserSearch.sendFriendRequest u t name)
             (e1 :: e2 :: e3 :: envs) st s in
  completion r = Returned tt
  /\ suspended r = []
  /\ UserSearch.sendingRequest (state_after r) = None
  /\ exists tst,
       UserSearch.toasts (state_after r) = UserSearch.toasts s ++ [tst]
       /\ (tst = UserSearch.request_sent name ->
           Store.friendships (store_after r)
           = Store.friendships st
             ++ [Friendship.mk (new_id e2) (User.id u) t pending (now e2)])
       /\ (tst <> UserSearch.request_sent name ->
           store_after r = st /\ variant tst = destructive).
Proof.
  cbn zeta. rewrite sendFriendRequest_run. cbn zeta.
  destruct (data _) as [existing|].
  - cbn. repeat split. exists (UserSearch.request_exists existing).
    split; [reflexivity|]. split; [discriminate|]. now split.
  - destruct (error (snd (serve (User.id u) e2 st _))) as [err|] eqn:E.
    + cbn. repeat split. exists (error_toast err).
      split; [reflexivity|]. split; [discriminate|]. now split.
    + split; [reflexivity|]. split; [reflexivity|]. split; [reflexivity|].
      exists (UserSearch.request_sent name).
      split; [reflexivity|]. split; [|congruence]. intros _.
      cbn [store_after].
      rewrite (proj1 (insert_notification_friendships _ _ _ _)).
      now rewrite (insert_friendship_served _ _ _ _ E).
Qed.

Lemma serve_keeps_pair (uid : string) (e : Env) (st : Store.t) {R}
  (rq : RemoteCall R) (a b : string) :
  (exists f, In f (Store.friendships st) /\ pair_row a b f) ->
  exists f, In f (Store.friendships (fst (serve uid e st rq))) /\ pair_row a b f.
Proof.
  intros [f [Hin Hp]].
  destruct rq; cbn; destruct (fault e); cbn; try (exists f; now split).
  - destruct (existsb _ _); cbn; exists f; (split; [|exact Hp]); [exact Hin|].
    apply in_or_app. now left.
  - destruct (find _ _) as [f0|]; cbn; [|exists f; now split].
    destruct (Friendship.addressee_id f0 =? uid); cbn; [|exists f; now split].
    exists (set_status id st0 f). split; [now apply in_map|].
    unfold set_status. now destruct (Friendship.id f =? id).
Qed.

Lemma serve_all_keeps_pair (calls : list Served) (st : Store.t) (a b : string) :
  (exists f, In f (Store.friendships st) /\ pair_row a b f) ->
  exists f, In f (Store.friendships (serve_all calls st)) /\ pair_row a b f.
Proof.
  unfold serve_all. revert st.
  induction calls as [|[uid e R rq] calls IH]; intros st H; cbn; [exact H|].
  apply IH. now apply serve_keeps_pair.
Qed.

Lemma pair_row_sym (a b : string) (f : Friendship.t) :
  pair_row a b f -> pair_row b a f.
Proof. unfold pair_row. tauto. Qed.

(** X11: a friend request is final.  Once a Friendship row exists between
    two users, no sequence of calls that the components make (responses,
    other requests, reads) reopens the pair: a later request from either
    of the two to the other writes nothing and ends in a destructive
    toast. *)
Theorem request_is_final
  (st : Store.t) (calls : list Served) (u v : User.t) (name : string)
  (e1 e2 e3 : Env) (envs : list Env) (s : UserSearch.State) :
  (exists f, In f (Store.friendships st) /\ pair_row (User.id u) (User.id v) f) ->
  forall (caller other : User.t),
    (caller = u /\ other = v) \/ (caller = v /\ other = u) ->
    let st' := serve_all calls st in
    let r := run (User.id caller)
               (UserSearch.sendFriendRequest caller (User.id other) name)
               (e1 :: e2 :: e3 :: envs) st' s in
    store_after r = st'
    /\ exists tst,
         UserSearch.toasts (state_after r) = UserSearch.toasts s ++ [tst]
         /\ variant tst = destructive.
Proof.
  intros Hex caller other Hwho. cbn zeta.
  assert (Hex' : exists f, In f (Store.friendships (serve_all calls st))
                           /\ pair_row (User.id caller) (User.id other) f).
  { destruct (serve_all_keeps_pair calls st _ _ Hex) as [f [Hin Hp]].
    exists f. split; [exact Hin|].
    destruct Hwho as [[-> ->]|[-> ->]]; [exact Hp|now apply pair_row_sym]. }
  apply existsb_between in Hex'.
  rewrite sendFriendRequest_run. cbn zeta.
  destruct (data _) as [existing|].
  - cbn. split; [reflexivity|]. eexists. split; reflexivity.
  - assert (E : exists err,
              error (snd (serve (User.id caller) e2 (serve_all calls st)
                            (InsertFriendship
                               (FriendshipInsert.mk (User.id caller)
                                  (User.id other) pending)))) = Some err).
    { cbn. destruct (fault e2); cbn; [eauto|]. rewrite Hex'. cbn. eauto. }
    destruct E as [err E]. rewrite E. cbn. split; [reflexivity|].
    eexists. split; reflexivity.
Qed.

Lemma request_is_final_witness :
  let u := User.mk "u" None in
  let v := User.mk "v" None in
  let st := Store.mk [Friendship.mk "f1" "u" "v" pending "2026-01-01"] [] [] in
  let st' := serve_all [served "v" quiet (UpdateFriendshipStatus "f1" rejected)] st in
  store_after
    (run "v" (UserSearch.sendFriendRequest v "u" "u_name") [quiet; quiet; quiet]
       st' (UserSearch.mkState None []))
  = st'.
Proof.
  cbn zeta.
  refine (proj1 (request_is_final
            (Store.mk [Friendship.mk "f1" "u" "v" pending "2026-01-01"] [] [])
            [served "v" quiet (UpdateFriendshipStatus "f1" rejected)]
            (User.mk "u" None) (User.mk "v" None) "u_name" quiet quiet quiet []
            (UserSearch.mkState None []) _
            (User.mk "v" None) (User.mk "u" None) _)).
  - eexists. split; [now left|]. left. split; reflexivity.
  - right. split; reflexivity.
Defined.

(** ** [handleFriendRequest] *)

Lemma set_status_spec (id : string) (st : FriendshipStatus)
  (l : list Friendship.t) :
  map Friendship.id (map (set_status id st) l) = map Friendship.id l
  /\ (forall g, In g (map (set_status id st) l) -> Friendship.id g = id ->
                Friendship.status g = st)
  /\ (forall g, In g l -> Friendship.id g <> id -> In g (map (set_status id st) l)).
Proof.
  split; [|split].
  - rewrite map_map. apply map_ext. intros f. unfold set_status.
    now destruct (Friendship.id f =? id).
  - intros g Hg Hid. apply in_map_iff in Hg. destruct Hg as [f [<- _]].
    unfold set_status in *. destruct (Friendship.id f =? id) eqn:E; [reflexivity|].
    apply String.eqb_neq in E. contradiction.
  - intros g Hg Hid. apply in_map_iff. exists g. split; [|exact Hg].
    unfold set_status. apply String.eqb_neq in Hid. now rewrite Hid.
Qed.

(** X12: accepting a listed request that the store holds for the caller
    sets the rows with that id to [accepted] and leaves every other
    Friendship row, and the order of the rows, as they were; it writes one
    [friend_accepted] Notification for the requester of the listed row,
    with the caller as related id; it shows "Friend Added" and starts a
    refetch, the lists of the inbox being still the old ones. *)
Theorem accept_listed_request
  (me : User.t) (pend : list Friendship.t) (id : string) (f f0 : Friendship.t)
  (e1 e2 : Env) (envs : list Env) (st : Store.t) (s : Notifications.State) :
  fault e1 = None -> fault e2 = None ->
  find (fun g => Friendship.id g =? id) (Store.friendships st) = Some f0 ->
  Friendship.addressee_id f0 = User.id me ->
  find (fun g => Friendship.id g =? id) pend = Some f ->
  let r := run (User.id me)
             (Notifications.handleFriendRequest (Some me) pend id true)
             (e1 :: e2 :: envs) st s in
  map Friendship.id (Store.friendships (store_after r))
  = map Friendship.id (Store.friendships st)
  /\ (forall g, In g (Store.friendships (store_after r)) ->
                Friendship.id g = id -> Friendship.status g = accepted)
  /\ (forall g, In g (Store.friendships st) -> Friendship.id g <> id ->
                In g (Store.friendships (store_after r)))
  /\ Store.notifications (store_after r)
     = Store.notifications st
       ++ [Notification.mk (new_id e2) (Friendship.requester_id f)
             NotificationType.friend_accepted
             "Your friend request was accepted!" (Some (User.id me)) false
             (now e2)]
  /\ Notifications.toasts (state_after r)
     = Notifications.toasts s ++ [Notifications.responded true]
  /\ Notifications.pendingRequests (state_after r)
     = Notifications.pendingRequests s
  /\ suspended r = [Notifications.fetchNotifications (Some me)].
Proof.
  intros H1 H2 Hst Hme Hpend. cbn zeta.
  unfold Notifications.handleFriendRequest. rewrite Hpend. cbn.
  rewrite H1. cbn. rewrite Hst. cbn. rewrite Hme, String.eqb_refl. cbn.
  rewrite H2. cbn.
  destruct (set_status_spec id accepted (Store.friendships st)) as [A [B C]].
  repeat split; auto.
Qed.

Lemma accept_listed_request_witness :
  let f1 := Friendship.mk "f1" "a" "u" pending "2026-01-01" in
  Store.notifications
    (store_after
       (run "u" (Notifications.handleFriendRequest (Some (User.mk "u" None))
                   [f1] "f1" true)
          [quiet; mkEnv None "n1" "2026-01-02"]
          (Store.mk [f1] [] []) (Notifications.mkState [] [f1] false [])))
  = [Notification.mk "n1" "a" NotificationType.friend_accepted
       "Your friend request was accepted!" (Some "u") false "2026-01-02"].
Proof.
  cbn zeta.
  refine (proj1 (proj2 (proj2 (proj2
    (accept_listed_request (User.mk "u" None)
       [Friendship.mk "f1" "a" "u" pending "2026-01-01"] "f1"
       (Friendship.mk "f1" "a" "u" pending "2026-01-01")
       (Friendship.mk "f1" "a" "u" pending "2026-01-01")
       quiet (mkEnv None "n1" "2026-01-02") []
       (Store.mk [Friendship.mk "f1" "a" "u" pending "2026-01-01"] [] [])
       (Notifications.mkState [] [Friendship.mk "f1" "a" "u" pending "2026-01-01"]
          false [])
       eq_refl eq_refl eq_refl eq_refl eq_refl))))).
Defined.

(** X13: a response writes a Notification only when it accepts a request
    of the cached list: declining, or accepting an id the list does not
    hold, leaves the notifications and the messages of the store as they
    were, whatever the store answers. *)
Theorem response_notifies_only_listed_accept
  (me : string) (user : option User.t) (pend : list Friendship.t) (id : string)
  (accept : bool) (envs : list Env) (st : Store.t) (s : Notifications.State) :
  accept = false \/ find (fun g => Friendship.id g =? id) pend = None ->
  let r := run me (Notifications.handleFriendRequest user pend id accept)
             envs st s in
  Store.notifications (store_after r) = Store.notifications st
  /\ Store.messages (store_after r) = Store.messages st
  /\ completion r = Returned tt.
Proof.
  intros H. cbn zeta. unfold Notifications.handleFriendRequest.
  cbn. destruct (fault (hd quiet envs)); cbn; [repeat split|].
  destruct (find _ (Store.friendships st)) as [f0|]; cbn; [|repeat split].
  destruct (Friendship.addressee_id f0 =? me); cbn; [|repeat split].
  destruct H as [-> | ->]; [|destruct accept]; cbn; destruct user; repeat split.
Qed.

Lemma response_notifies_only_listed_accept_witness :
  let f1 := Friendship.mk "f1" "a" "u" pending "2026-01-01" in
  Store.notifications
    (store_after
       (run "u" (Notifications.handleFriendRequest (Some (User.mk "u" None))
                   [f1] "f1" false)
          [quiet] (Store.mk [f1] [] []) (Notifications.mkState [] [f1] false [])))
  = [].
Proof.
  cbn zeta.
  refine (proj1 (response_notifies_only_listed_accept "u"
            (Some (User.mk "u" None))
            [Friendship.mk "f1" "a" "u" pending "2026-01-01"] "f1" false [quiet]
            (Store.mk [Friendship.mk "f1" "a" "u" pending "2026-01-01"] [] [])
            (Notifications.mkState []
               [Friendship.mk "f1" "a" "u" pending "2026-01-01"] false [])
            _)).
  now left.
Defined.

(** ** [fetchNotifications] *)

(** X14: a failed refresh is silent and may be partial.  When the first
    query fails both lists of the inbox stay as they were; when only the
    second fails the notifications are the fresh ones and the pending
    requests the old ones; in both cases the loading flag is cleared, no
    toast is shown and the store is untouched.  With no user nothing
    happens, and the loading flag is not cleared. *)
Theorem fetchNotifications_failure_is_partial
  (u : User.t) (e1 e2 : Env) (envs : list Env) (st : Store.t)
  (s : Notifications.State) (err : Err) :
  (fault e1 = Some err ->
   run (User.id u) (Notifications.fetchNotifications (Some u)) (e1 :: envs) st s
   = mkRun (Returned tt) st (Notifications.setLoading false s) [])
  /\ (fault e1 = None -> fault e2 = Some err ->
      run (User.id u) (Notifications.fetchNotifications (Some u))
        (e1 :: e2 :: envs) st s
      = mkRun (Returned tt) st
          (Notifications.mkState (inbox (User.id u) st)
             (Notifications.pendingRequests s) false (Notifications.toasts s))
          [])
  /\ Notifications.fetchNotifications None = Ret tt.
Proof.
  unfold Notifications.fetchNotifications. split; [|split; [|reflexivity]].
  - intros H1. cbn. now rewrite H1.
  - intros H1 H2. cbn. rewrite H1. cbn. now rewrite H2.
Qed.

Lemma fetchNotifications_failure_is_partial_witness :
  run "u" (Notifications.fetchNotifications (Some (User.mk "u" None)))
    [mkEnv (Some (RemoteError TransportError "network down")) "" ""]
    (Store.mk [] [] []) (Notifications.mkState [] [] true [])
  = mkRun (Returned tt) (Store.mk [] [] [])
      (Notifications.mkState [] [] false []) [].
Proof.
  apply (proj1 (fetchNotifications_failure_is_partial (User.mk "u" None)
                  (mkEnv (Some (RemoteError TransportError "network down")) "" "")
                  quiet [] (Store.mk [] [] [])
                  (Notifications.mkState [] [] true [])
                  (RemoteError TransportError "network down")) eq_refl).
Defined.

(** ** The badge under [markAsRead] and under a friend request *)

Lemma insert_by_map {A} (le : A -> A -> bool) (f : A -> A) (x : A) (l : list A) :
  (forall a b, le (f a) (f b) = le a b) ->
  insert_by le (f x) (map f l) = map f (insert_by le x l).
Proof.
  intros H. induction l as [|y l IH]; cbn; [reflexivity|].
  rewrite H. destruct (le x y); cbn; [reflexivity|now rewrite IH].
Qed.

Lemma order_by_map {A} (le : A -> A -> bool) (f : A -> A) (l : list A) :
  (forall a b, le (f a) (f b) = le a b) ->
  order_by le (map f l) = map f (order_by le l).
Proof.
  intros H. induction l as [|x l IH]; cbn; [reflexivity|].
  now rewrite IH, insert_by_map.
Qed.

Lemma filter_map_same {A} (p : A -> bool) (f : A -> A) (l : list A) :
  (forall x, p (f x) = p x) -> filter p (map f l) = map f (filter p l).
Proof.
  intros H. induction l as [|x l IH]; cbn; [reflexivity|].
  rewrite H. destruct (p x); cbn; now rewrite IH.
Qed.

Lemma inbox_set_read (u i : string) (st : Store.t) :
  inbox u (Store.mk (Store.friendships st) (Store.messages st)
             (map (set_read i) (Store.notifications st)))
  = map (set_read i) (inbox u st).
Proof.
  unfold inbox. cbn [Store.notifications].
  rewrite filter_map_same.
  - rewrite order_by_map; [now rewrite firstn_map|].
    intros a b. unfold newest_first, set_read.
    now destruct (Notification.id a =? i), (Notification.id b =? i).
  - intros n. unfold owned_by, set_read. now destruct (Notification.id n =? i).
Qed.

Lemma set_read_other (i : string) (l : list Notification.t) :
  ~ In i (map Notification.id l) -> map (set_read i) l = l.
Proof.
  induction l as [|x l IH]; cbn; [reflexivity|]. intros H.
  rewrite IH by tauto. unfold set_read.
  destruct (String.eqb_spec (Notification.id x) i); [|reflexivity].
  exfalso. apply H. now left.
Qed.

Lemma set_read_count (i : string) (l : list Notification.t) :
  NoDup (map Notification.id l) ->
  (exists n, In n l /\ Notification.id n = i /\ Notification.read n = false) ->
  length (filter unread (map (set_read i) l)) + 1 = length (filter unread l).
Proof.
  induction l as [|x l IH]; intros Hnd [n [Hin [Hid Hread]]]; [destruct Hin|].
  subst i. cbn in Hnd. inversion Hnd as [|? ? Hx Hnd']; subst.
  destruct (String.eqb_spec (Notification.id x) (Notification.id n)) as [E|E].
  - assert (Hxn : x = n).
    { destruct Hin as [Hin|Hin]; [exact Hin|].
      exfalso. apply Hx. rewrite E. now apply in_map. }
    subst x. cbn [map]. rewrite (set_read_other (Notification.id n) l Hx).
    assert (Hu : unread n = true) by (unfold unread; now rewrite Hread).
    cbn [filter]. rewrite Hu. unfold set_read. rewrite String.eqb_refl.
    unfold unread at 1. cbn [Notification.read negb length]. lia.
  - destruct Hin as [Hin|Hin]; [subst; contradiction|].
    assert (IH' := IH Hnd' (ex_intro _ n (conj Hin (conj eq_refl Hread)))).
    cbn [map filter]. unfold set_read at 1. apply String.eqb_neq in E.
    rewrite E. destruct (unread x); cbn [length]; lia.
Qed.

(** [markAsRead] in one piece. *)
Lemma markAsRead_run (u : User.t) (i : string) (e0 : Env) (envs : list Env)
  (st : Store.t) (s : Notifications.State) :
  run (User.id u) (Notifications.markAsRead (Some u) i) (e0 :: envs) st s
  = mkRun (Returned tt)
      match fault e0 with
      | Some _ => st
      | None => Store.mk (Store.friendships st) (Store.messages st)
                  (map (set_read i) (Store.notifications st))
      end
      s [Notifications.fetchNotifications (Some u)].
Proof.
  unfold Notifications.markAsRead. cbn. now destruct (fault e0).
Qed.

(** X15: clicking an unread notification of the inbox lowers the badge by
    one once the refetch that [markAsRead] starts has come back, the ids of
    the inbox being distinct; if the update of the read flag fails, the
    refetch is started all the same and the badge stays as it was. *)
Theorem markAsRead_lowers_badge
  (u : User.t) (i : string) (e0 e1 e2 e1' e2' : Env) (st : Store.t)
  (s : Notifications.State) :
  fault e1 = None -> fault e2 = None -> fault e1' = None -> fault e2' = None ->
  NoDup (map Notification.id (inbox (User.id u) st)) ->
  (exists n, In n (inbox (User.id u) st) /\ Notification.id n = i
             /\ Notification.read n = false) ->
  let before := state_after
                  (run (User.id u) (Notifications.fetchNotifications (Some u))
                     [e1; e2] st s) in
  let r := run (User.id u) (Notifications.markAsRead (Some u) i) [e0] st before in
  let after := state_after
                 (run (User.id u) (Notifications.fetchNotifications (Some u))
                    [e1'; e2'] (store_after r) (state_after r)) in
  suspended r = [Notifications.fetchNotifications (Some u)]
  /\ (fault e0 = None ->
      Notifications.unreadCount after + 1 = Notifications.unreadCount before)
  /\ (fault e0 <> None ->
      Notifications.unreadCount after = Notifications.unreadCount before).
Proof.
  intros H1 H2 H1' H2' Hnd Hex. cbn zeta.
  rewrite (fetchNotifications_run u e1 e2 [] st s H1 H2).
  rewrite markAsRead_run.
  rewrite (fetchNotifications_run u e1' e2' [] _ _ H1' H2').
  cbn [state_after store_after suspended].
  unfold Notifications.unreadCount.
  cbn [Notifications.notifications Notifications.pendingRequests].
  split; [reflexivity|].
  destruct (fault e0) as [err|].
  - split; [discriminate|reflexivity].
  - split; [|congruence]. intros _.
    rewrite inbox_set_read. cbn [Store.friendships].
    pose proof (set_read_count i _ Hnd Hex) as C. unfold unread in C.
    lia.
Qed.

Lemma markAsRead_lowers_badge_witness :
  let u := User.mk "u" None in
  let st := Store.mk [] []
              [Notification.mk "n1" "u" NotificationType.message
                 "New message from a" (Some "a") false "2026-01-01"] in
  let before := state_after
                  (run "u" (Notifications.fetchNotifications (Some u))
                     [quiet; quiet] st (Notifications.mkState [] [] true [])) in
  let r := run "u" (Notifications.markAsRead (Some u) "n1") [quiet] st before in
  let after := state_after
                 (run "u" (Notifications.fetchNotifications (Some u))
                    [quiet; quiet] (store_after r) (state_after r)) in
  Notifications.unreadCount after + 1 = Notifications.unreadCount before.
Proof.
  cbn zeta.
  refine (proj1 (proj2 (markAsRead_lowers_badge (User.mk "u" None) "n1"
            quiet quiet quiet quiet quiet
            (Store.mk [] []
               [Notification.mk "n1" "u" NotificationType.message
                  "New message from a" (Some "a") false "2026-01-01"])
            (Notifications.mkState [] [] true [])
            eq_refl eq_refl eq_refl eq_refl _ _)) eq_refl).
  - cbn. repeat constructor. intros [].
  - eexists. split; [now left|]. split; reflexivity.
Defined.

Lemma inbox_unread_count (u : string) (st : Store.t) :
  length (filter (owned_by u) (Store.notifications st)) <= 20 ->
  length (filter (fun n => negb (Notification.read n)) (inbox u st))
  = length (filter (fun n => owned_by u n && unread n) (Store.notifications st)).
Proof.
  intros Hle. unfold inbox. rewrite firstn_all2.
  - change (fun n => negb (Notification.read n)) with unread.
    now rewrite order_by_count, filter_filter.
  - now rewrite order_by_length.
Qed.

(** The store after a request that goes through. *)
Lemma sendFriendRequest_written
  (u : User.t) (t name : string) (e1 e2 e3 : Env) (envs : list Env)
  (st : Store.t) (s : UserSearch.State) :
  (forall f, In f (Store.friendships st) -> ~ pair_row (User.id u) t f) ->
  fault e2 = None -> fault e3 = None ->
  store_after (run (User.id u) (UserSearch.sendFriendRequest u t name)
                 (e1 :: e2 :: e3 :: envs) st s)
  = Store.mk
      (Store.friendships st
       ++ [Friendship.mk (new_id e2) (User.id u) t pending (now e2)])
      (Store.messages st)
      (Store.notifications st
       ++ [Notification.mk (new_id e3) t NotificationType.friend_request
             "You have a new friend request" (Some (User.id u)) false (now e3)]).
Proof.
  intros Hno H2 H3. apply existsb_between_false in Hno.
  rewrite sendFriendRequest_run. cbn zeta.
  assert (Hfil : filter (between (User.id u) t) (Store.friendships st) = []).
  { destruct (filter (between (User.id u) t) (Store.friendships st))
      as [|f l] eqn:E; [reflexivity|].
    assert (Hin : In f (filter (between (User.id u) t) (Store.friendships st)))
      by (rewrite E; now left).
    apply filter_In in Hin. destruct Hin as [Hin Hb].
    assert (existsb (between (User.id u) t) (Store.friendships st) = true)
      by (apply existsb_exists; eauto).
    congruence. }
  assert (Hlook : data (snd (serve (User.id u) e1 st
                               (SelectFriendshipBetween (User.id u) t))) = None).
  { cbn. destruct (fault e1); cbn; [reflexivity|]. now rewrite Hfil. }
  rewrite Hlook. cbn. rewrite H2. cbn. rewrite Hno. cbn. now rewrite H3.
Qed.

(** X16: a friend request that goes through raises the badge of its
    target by two, the target owning fewer than 20 notifications: the
    request is counted as unread [friend_request] Notification and once
    more as pending incoming Friendship. *)
Theorem request_raises_badge_by_two
  (u t : User.t) (name : string) (e1 e2 e3 ea eb : Env) (st : Store.t)
  (s0 : UserSearch.State) (s : Notifications.State) :
  (forall f, In f (Store.friendships st) ->
             ~ pair_row (User.id u) (User.id t) f) ->
  fault e2 = None -> fault e3 = None -> fault ea = None -> fault eb = None ->
  length (filter (owned_by (User.id t)) (Store.notifications st)) < 20 ->
  let st' := store_after
               (run (User.id u)
                  (UserSearch.sendFriendRequest u (User.id t) name)
                  [e1; e2; e3] st s0) in
  let badge x :=
    Notifications.unreadCount
      (state_after (run (User.id t) (Notifications.fetchNotifications (Some t))
                      [ea; eb] x s)) in
  badge st' = badge st + 2.
Proof.
  intros Hno H2 H3 Ha Hb Hlt. cbn zeta.
  rewrite (sendFriendRequest_written u (User.id t) name e1 e2 e3 [] st s0 Hno H2 H3).
  rewrite !(fetchNotifications_run t ea eb [] _ s Ha Hb).
  cbn [state_after]. unfold Notifications.unreadCount.
  cbn [Notifications.notifications Notifications.pendingRequests].
  rewrite !inbox_unread_count.
  - cbn [Store.notifications Store.friendships].
    rewrite !filter_app, !length_app. cbn [filter].
    unfold owned_by at 2, unread at 2, pending_incoming at 2.
    cbn [Notification.user_id Notification.read Friendship.addressee_id
           Friendship.status status_eqb negb].
    rewrite String.eqb_refl. cbn. lia.
  - lia.
  - cbn [Store.notifications]. rewrite filter_app, length_app.
    cbn [filter]. destruct (owned_by _ _); cbn [length]; lia.
Qed.

Lemma request_raises_badge_by_two_witness :
  let u := User.mk "u" None in
  let t := User.mk "t" None in
  let st := Store.mk [] [] [] in
  let st' := store_after
               (run "u" (UserSearch.sendFriendRequest u "t" "tee")
                  [quiet; mkEnv None "f1" "2026-01-01"; mkEnv None "n1" "2026-01-01"]
                  st (UserSearch.mkState None [])) in
  let badge x :=
    Notifications.unreadCount
      (state_after (run "t" (Notifications.fetchNotifications (Some t))
                      [quiet; quiet] x (Notifications.mkState [] [] true []))) in
  badge st' = badge st + 2.
Proof.
  cbn zeta.
  refine (request_raises_badge_by_two (User.mk "u" None) (User.mk "t" None) "tee"
            quiet (mkEnv None "f1" "2026-01-01") (mkEnv None "n1" "2026-01-01")
            quiet quiet (Store.mk [] [] []) (UserSearch.mkState None [])
            (Notifications.mkState [] [] true [])
            _ eq_refl eq_refl eq_refl eq_refl _).
  - intros f [].
  - cbn. repeat constructor.
Defined.

(** ** [fetchFriends] *)

Lemma In_filter_Boolean {A} (x : A) (l : list (option A)) :
  In x (FriendsList.filter_Boolean l) <-> In (Some x) l.
Proof.
  induction l as [|[y|] l IH]; cbn; [tauto| |].
  - rewrite IH. split; intros [H|H]; auto; left; congruence.
  - rewrite IH. split; [auto|]. intros [H|H]; [discriminate|exact H].
Qed.

Lemma profile_of_id (profiles : list Profile.t) (i : string) (p : Profile.t) :
  FriendsList.profile_of profiles i = Some p -> Profile.id p = i.
Proof.
  unfold FriendsList.profile_of. intros H. apply find_some in H.
  now apply String.eqb_eq.
Qed.

(** The fetched friend list, row by row. *)
Lemma fetched_friends_spec
  (profiles : list Profile.t) (u : User.t) (st : Store.t)
  (s : FriendsList.State) (p : Profile.t) :
  let s' := FriendsList.fetchFriends (Some u)
              (FriendsList.select_friends profiles (User.id u) st) s in
  In p (FriendsList.friends s')
  <-> exists f,
        In f (Store.friendships st) /\ Friendship.status f = accepted
        /\ ((Friendship.requester_id f = User.id u
             /\ FriendsList.profile_of profiles (Friendship.addressee_id f) = Some p)
            \/ (Friendship.requester_id f <> User.id u
                /\ Friendship.addressee_id f = User.id u
                /\ FriendsList.profile_of profiles (Friendship.requester_id f)
                   = Some p)).
Proof.
  cbn. rewrite In_filter_Boolean, in_map_iff. split.
  - intros [j [Hj Hin]]. apply in_map_iff in Hin. destruct Hin as [f [<- Hf]].
    apply filter_In in Hf. destruct Hf as [Hf Hacc]. cbn in Hj.
    unfold FriendsList.accepted_touching in Hacc.
    apply andb_true_iff in Hacc. destruct Hacc as [Hs Hto].
    exists f. split; [exact Hf|]. split; [now destruct (Friendship.status f)|].
    destruct (String.eqb_spec (Friendship.requester_id f) (User.id u)) as [E|E].
    + left. now split.
    + right. cbn in Hto. apply String.eqb_eq in Hto. now repeat split.
  - intros [f [Hf [Hs Hcase]]].
    exists (FriendsList.mkJoined f
              (FriendsList.profile_of profiles (Friendship.requester_id f))
              (FriendsList.profile_of profiles (Friendship.addressee_id f))).
    split.
    + cbn. destruct Hcase as [[E Hp]|[E [_ Hp]]].
      * now rewrite E, String.eqb_refl.
      * apply String.eqb_neq in E. now rewrite E.
    + apply in_map_iff. exists f. split; [reflexivity|].
      apply filter_In. split; [exact Hf|].
      unfold FriendsList.accepted_touching. rewrite Hs. cbn.
      destruct Hcase as [[E _]|[_ [E _]]]; rewrite E, String.eqb_refl;
        [reflexivity|apply orb_true_r].
Qed.

(** X17: after [fetchFriends] the friend list of a user holds a profile
    exactly when it is the joined profile of the other party of an
    accepted Friendship with the user as requester or addressee: rows that
    are pending or rejected, rows of other users and partners without a
    profile contribute nothing. *)
Theorem friends_are_the_accepted_partners
  (profiles : list Profile.t) (u : User.t) (st : Store.t)
  (s : FriendsList.State) (p : Profile.t) :
  let s' := FriendsList.fetchFriends (Some u)
              (FriendsList.select_friends profiles (User.id u) st) s in
  In p (FriendsList.friends s')
  <-> exists f,
        In f (Store.friendships st) /\ Friendship.status f = accepted
        /\ ((Friendship.requester_id f = User.id u
             /\ FriendsList.profile_of profiles (Friendship.addressee_id f) = Some p)
            \/ (Friendship.requester_id f <> User.id u
                /\ Friendship.addressee_id f = User.id u
                /\ FriendsList.profile_of profiles (Friendship.requester_id f)
                   = Some p)).
Proof. apply fetched_friends_spec. Qed.

(** X18: friendship is mutual.  For two users with a profile each, the
    profile of the second is in the fetched friend list of the first
    exactly when the profile of the first is in the fetched friend list of
    the second. *)
Theorem friendship_is_mutual
  (profiles : list Profile.t) (x y : User.t) (px py : Profile.t)
  (st : Store.t) (sx sy : FriendsList.State) :
  FriendsList.profile_of profiles (User.id x) = Some px ->
  FriendsList.profile_of profiles (User.id y) = Some py ->
  In py (FriendsList.friends
           (FriendsList.fetchFriends (Some x)
              (FriendsList.select_friends profiles (User.id x) st) sx))
  <-> In px (FriendsList.friends
               (FriendsList.fetchFriends (Some y)
                  (FriendsList.select_friends profiles (User.id y) st) sy)).
Proof.
  assert (Hhalf : forall (a b : User.t) (pa pb : Profile.t) sa sb,
    FriendsList.profile_of profiles (User.id a) = Some pa ->
    FriendsList.profile_of profiles (User.id b) = Some pb ->
    In pb (FriendsList.friends
             (FriendsList.fetchFriends (Some a)
                (FriendsList.select_friends profiles (User.id a) st) sa)) ->
    In pa (FriendsList.friends
             (FriendsList.fetchFriends (Some b)
                (FriendsList.select_friends profiles (User.id b) st) sb))).
  { intros a b pa pb sa sb Ha Hb H.
    apply fetched_friends_spec in H.
    apply fetched_friends_spec.
    destruct H as [f [Hf [Hs Hcase]]]. exists f. split; [exact Hf|].
    split; [exact Hs|].
    destruct Hcase as [[Er Hp]|[Er [Ea Hp]]]; apply profile_of_id in Hp.
    - apply profile_of_id in Hb as Hb'. rewrite Hb' in Hp.
      destruct (String.eqb_spec (User.id a) (User.id b)) as [E|E].
      + left. split; [congruence|]. rewrite <- Hp, <- E. exact Ha.
      + right. split; [congruence|]. split; [congruence|]. now rewrite Er.
    - apply profile_of_id in Hb as Hb'. rewrite Hb' in Hp.
      left. split; [congruence|]. now rewrite Ea. }
  intros Hx Hy. split; intros H; eapply Hhalf; eauto.
Qed.

Lemma friendship_is_mutual_witness :
  let profiles := [Profile.mk "x" (Some "xavier") None None "t" "t";
                   Profile.mk "y" (Some "yves") None None "t" "t"] in
  let st := Store.mk [Friendship.mk "f1" "x" "y" accepted "2026-01-01"] [] [] in
  In (Profile.mk "y" (Some "yves") None None "t" "t")
     (FriendsList.friends
        (FriendsList.fetchFriends (Some (User.mk "x" None))
           (FriendsList.select_friends profiles "x" st)
           (FriendsList.mkState [] true)))
  <-> In (Profile.mk "x" (Some "xavier") None None "t" "t")
        (FriendsList.friends
           (FriendsList.fetchFriends (Some (User.mk "y" None))
              (FriendsList.select_friends profiles "y" st)
              (FriendsList.mkState [] true))).
Proof.
  cbn zeta.
  apply (friendship_is_mutual
           [Profile.mk "x" (Some "xavier") None None "t" "t";
            Profile.mk "y" (Some "yves") None None "t" "t"]
           (User.mk "x" None) (User.mk "y" None)
           (Profile.mk "x" (Some "xavier") None None "t" "t")
           (Profile.mk "y" (Some "yves") None None "t" "t")
           (Store.mk [Friendship.mk "f1" "x" "y" accepted "2026-01-01"] [] [])
           (FriendsList.mkState [] true) (FriendsList.mkState [] true)
           eq_refl eq_refl).
Defined.

(** ** The username schema *)

Lemma length_list_ascii (s : string) :
  length (list_ascii_of_string s) = String.length s.
Proof. induction s as [|c s IH]; cbn; [reflexivity|now rewrite IH]. Qed.

Lemma word_only_spec (s : string) :
  String.length s <> 0 ->
  SetUsername.word_only s = forallb SetUsername.is_word (list_ascii_of_string s).
Proof.
  unfold SetUsername.word_only. destruct s; [contradiction|reflexivity].
Qed.

(** What the schema accepts. *)
Lemma username_schema_aux (s : string) :
  SetUsername.success s = true
  <-> 3 <= String.length s <= 20
      /\ forallb SetUsername.is_word (list_ascii_of_string s) = true.
Proof.
  unfold SetUsername.success, SetUsername.issues.
  destruct (Nat.ltb_spec (String.length s) 3) as [H3|H3].
  - cbn. split; [discriminate|]. intros [? _]. lia.
  - destruct (Nat.ltb_spec 20 (String.length s)) as [H20|H20].
    + cbn. split; [discriminate|]. intros [? _]. lia.
    + rewrite word_only_spec by lia. cbn.
      destruct (forallb _ _); cbn.
      * split; [intros _; split; [lia|reflexivity]|reflexivity].
      * split; [discriminate|]. intros [_ ?]. discriminate.
Qed.

(** X19: the username schema accepts exactly the strings of 3 to 20
    characters, both bounds included, made of letters, digits and
    underscores.  Of a refused string the first failed check is reported:
    a string of fewer than 3 characters, the empty one included, is "at
    least 3 characters" whatever it is made of, one of more than 20 is
    "less than 20 characters", and only a string of fitting length is
    charged with its characters. *)
Theorem username_schema (s : string) :
  (SetUsername.success s = true
   <-> 3 <= String.length s <= 20
       /\ forallb SetUsername.is_word (list_ascii_of_string s) = true)
  /\ (String.length s < 3 ->
      SetUsername.first_message s
      = Some "Username must be at least 3 characters")
  /\ (20 < String.length s ->
      SetUsername.first_message s
      = Some "Username must be less than 20 characters")
  /\ (3 <= String.length s <= 20 ->
      forallb SetUsername.is_word (list_ascii_of_string s) = false ->
      SetUsername.first_message s
      = Some "Username can only contain letters, numbers, and underscores").
Proof.
  split; [apply username_schema_aux|].
  unfold SetUsername.first_message, SetUsername.issues.
  split; [|split].
  - intros H. apply Nat.ltb_lt in H. now rewrite H.
  - intros H. assert (H' : Nat.ltb (String.length s) 3 = false)
      by (apply Nat.ltb_ge; lia).
    apply Nat.ltb_lt in H. now rewrite H', H.
  - intros [Ha Hb] Hw.
    assert (H1 : Nat.ltb (String.length s) 3 = false) by (apply Nat.ltb_ge; lia).
    assert (H2 : Nat.ltb 20 (String.length s) = false) by (apply Nat.ltb_ge; lia).
    rewrite H1, H2, word_only_spec by lia. now rewrite Hw.
Qed.

Lemma username_schema_witness :
  SetUsername.first_message "a!"
  = Some "Username must be at least 3 characters".
Proof.
  apply (proj1 (proj2 (username_schema "a!"))). cbn. repeat constructor.
Defined.

Lemma lower_word (c : ascii) :
  SetUsername.is_word c = true ->
  SetUsername.is_word (SetUsername.lower c) = true
  /\ SetUsername.lower (SetUsername.lower c) = SetUsername.lower c
  /\ (Nat.leb 65 (nat_of_ascii (SetUsername.lower c))
      && Nat.leb (nat_of_ascii (SetUsername.lower c)) 90) = false.
Proof.
  destruct c as [[] [] [] [] [] [] [] []]; vm_compute; intros H;
    try discriminate H; repeat split.
Qed.

Lemma toLowerCase_length (s : string) :
  String.length (SetUsername.toLowerCase s) = String.length s.
Proof. induction s as [|c s IH]; cbn; [reflexivity|now rewrite IH]. Qed.

(** X20: the username that is written for an accepted input is again
    accepted by the schema, has the length of the input, holds no capital
    letter, and is its own lower-case form: two inputs that differ in case
    only are written as the same username. *)
Theorem written_username_is_canonical (s : string) :
  SetUsername.success s = true ->
  let v := SetUsername.toLowerCase s in
  SetUsername.validated s = inr v
  /\ SetUsername.success v = true
  /\ String.length v = String.length s
  /\ SetUsername.toLowerCase v = v
  /\ forallb (fun c => negb (Nat.leb 65 (nat_of_ascii c)
                             && Nat.leb (nat_of_ascii c) 90))
       (list_ascii_of_string v) = true.
Proof.
  intros Hs. cbn zeta.
  assert (Hv : SetUsername.validated s = inr (SetUsername.toLowerCase s)).
  { unfold SetUsername.validated, SetUsername.first_message.
    unfold SetUsername.success in Hs.
    now destruct (SetUsername.issues s). }
  apply (proj1 (username_schema_aux s)) in Hs. destruct Hs as [Hlen Hw].
  split; [exact Hv|].
  assert (Hall : forallb SetUsername.is_word
                   (list_ascii_of_string (SetUsername.toLowerCase s)) = true
                 /\ SetUsername.toLowerCase (SetUsername.toLowerCase s)
                    = SetUsername.toLowerCase s
                 /\ forallb (fun c => negb (Nat.leb 65 (nat_of_ascii c)
                                            && Nat.leb (nat_of_ascii c) 90))
                      (list_ascii_of_string (SetUsername.toLowerCase s)) = true).
  { clear Hlen Hv. induction s as [|c s IH]; [repeat split|].
    cbn [list_ascii_of_string forallb] in Hw. apply andb_true_iff in Hw.
    destruct Hw as [Hc Hw]. destruct (IH Hw) as [A [B C]].
    destruct (lower_word c Hc) as [L1 [L2 L3]].
    cbn [SetUsername.toLowerCase list_ascii_of_string forallb].
    rewrite A, B, C, L1, L2, L3. repeat split. }
  destruct Hall as [A [B C]].
  split; [|split; [apply toLowerCase_length|now split]].
  apply (proj2 (username_schema_aux _)). rewrite toLowerCase_length. now split.
Qed.

Lemma written_username_is_canonical_witness :
  SetUsername.validated "Ada_Lovelace" = inr "ada_lovelace".
Proof.
  apply (proj1 (written_username_is_canonical "Ada_Lovelace" eq_refl)).
Defined.

(** ** The upload path *)

Lemma split_last_spec (sep : ascii) (s : string) :
  contains sep (split_last sep s) = false
  /\ (contains sep s = false -> split_last sep s = s)
  /\ (contains sep s = true ->
      exists stem, s = (stem ++ String sep (split_last sep s))%string).
Proof.
  induction s as [|c s [IH1 [IH2 IH3]]]; cbn.
  - repeat split. discriminate.
  - destruct (contains sep s) eqn:Cs.
    + split; [exact IH1|]. rewrite orb_true_r. split; [discriminate|].
      intros _. destruct (IH3 eq_refl) as [stem Hs].
      exists (String c stem). cbn. now rewrite <- Hs.
    + rewrite orb_false_r. destruct (Ascii.eqb c sep) eqn:E.
      * split; [exact Cs|]. split; [discriminate|]. intros _.
        apply Ascii.eqb_eq in E. subst c. now exists "".
      * split; [cbn; now rewrite E, Cs|]. split; [reflexivity|discriminate].
Qed.

(** X21: [uploadFile] stores the attachment under the user's id, the
    clock reading and the text after the last dot of the file name: the
    extension holds no dot and the file name ends with it; a name without
    a dot is taken whole as the extension. *)
Theorem upload_path_extension (u : User.t) (f : File.t) (clock : string) :
  let ext := split_last "." (File.name f) in
  (exists k,
     ChatWindow.uploadFile u f clock
     = Call (StorageUpload (User.id u ++ "/" ++ clock ++ "." ++ ext)%string f) k)
  /\ contains "." ext = false
  /\ (contains "." (File.name f) = false -> ext = File.name f)
  /\ (contains "." (File.name f) = true ->
      exists stem, File.name f = (stem ++ "." ++ ext)%string).
Proof.
  cbn zeta. destruct (split_last_spec "." (File.name f)) as [A [B C]].
  split; [|split; [exact A|split; [exact B|exact C]]].
  unfold ChatWindow.uploadFile. cbn. eexists. reflexivity.
Qed.

Lemma upload_path_extension_witness :
  split_last "." (File.name (File.mk "README" "text/plain" 10%N)) = "README".
Proof.
  apply (proj1 (proj2 (proj2 (upload_path_extension (User.mk "u" None)
                                (File.mk "README" "text/plain" 10%N) "1")))).
  reflexivity.
Defined.

(** ** Declining a request *)

(** X22: declining a request that the store holds for the caller sets the
    rows with that id to [rejected] and leaves every other Friendship row,
    and the order of the rows, as they were; it shows "Request Declined"
    and starts a refetch. *)
Theorem decline_request
  (me : User.t) (pend : list Friendship.t) (id : string) (f0 : Friendship.t)
  (e1 : Env) (envs : list Env) (st : Store.t) (s : Notifications.State) :
  fault e1 = None ->
  find (fun g => Friendship.id g =? id) (Store.friendships st) = Some f0 ->
  Friendship.addressee_id f0 = User.id me ->
  let r := run (User.id me)
             (Notifications.handleFriendRequest (Some me) pend id false)
             (e1 :: envs) st s in
  map Friendship.id (Store.friendships (store_after r))
  = map Friendship.id (Store.friendships st)
  /\ (forall g, In g (Store.friendships (store_after r)) ->
                Friendship.id g = id -> Friendship.status g = rejected)
  /\ (forall g, In g (Store.friendships st) -> Friendship.id g <> id ->
                In g (Store.friendships (store_after r)))
  /\ Notifications.toasts (state_after r)
     = Notifications.toasts s ++ [Notifications.responded false]
  /\ suspended r = [Notifications.fetchNotifications (Some me)].
Proof.
  intros H1 Hst Hme. cbn zeta.
  unfold Notifications.handleFriendRequest. cbn.
  rewrite H1. cbn. rewrite Hst. cbn. rewrite Hme, String.eqb_refl. cbn.
  destruct (set_status_spec id rejected (Store.friendships st)) as [A [B C]].
  repeat split; auto.
Qed.

Lemma decline_request_witness :
  let f1 := Friendship.mk "f1" "a" "u" pending "2026-01-01" in
  Notifications.toasts
    (state_after
       (run "u" (Notifications.handleFriendRequest (Some (User.mk "u" None))
                   [f1] "f1" false)
          [quiet] (Store.mk [f1] [] []) (Notifications.mkState [] [f1] false [])))
  = [Notifications.responded false].
Proof.
  cbn zeta.
  refine (proj1 (proj2 (proj2 (proj2
    (decline_request (User.mk "u" None)
       [Friendship.mk "f1" "a" "u" pending "2026-01-01"] "f1"
       (Friendship.mk "f1" "a" "u" pending "2026-01-01") quiet []
       (Store.mk [Friendship.mk "f1" "a" "u" pending "2026-01-01"] [] [])
       (Notifications.mkState [] [Friendship.mk "f1" "a" "u" pending "2026-01-01"]
          false [])
       eq_refl eq_refl eq_refl))))).
Defined.
